(** * PBPD predictor: feature derivation and material routing

    A shallow embedding of the two Streamlit scripts of the repository,
    [src/app.py] (interactive form, PDF report and batch CSV flow) and
    [src/project/app.py] (the earlier, interactive-only variant), and the
    properties of their routing, metric and warning logic.

    Python [float] is IEEE binary64 and is modelled by Rocq's primitive
    floats; [str] is modelled by [string] (byte strings, so [lower],
    [upper] and [in] are the ASCII ones); the fitted regression models
    are opaque functions from a feature vector to a number, and the
    directory [joblib.load] reads from is a partial map from file names
    to models. A run of a script is a function from what the widgets
    return to what the page shows, or to the exception that ends the
    run. The layout calls, the PDF report and the CSV download are not
    modelled, and an uploaded CSV is taken after the required-columns
    check, as a list of typed rows. *)

From Stdlib Require Import ZArith Lia List String Ascii Bool.
From Stdlib Require Import Floats.
Import ListNotations.

Set Warnings "-inexact-float".

(** ** Python values, exceptions and string primitives *)

Module Py.

(** The exceptions the two scripts can raise. *)
Inductive exn : Type :=
| ZeroDivisionError
| FileNotFoundError (path : string)
| ValueError (values index : nat).

Inductive result (A : Type) : Type :=
| Ok (a : A)
| Raise (e : exn).
Arguments Ok {A} a.
Arguments Raise {A} e.

Definition bind {A B : Type} (m : result A) (k : A -> result B) : result B :=
  match m with
  | Ok a => k a
  | Raise e => Raise e
  end.

(** [x / y] on Python floats: a zero divisor (of either sign) raises,
    any other divisor gives the IEEE quotient. *)
Definition truediv (x y : float) : result float :=
  if (y =? 0)%float then Raise ZeroDivisionError else Ok (x / y)%float.

(** [x > y] *)
Definition gtb (x y : float) : bool := (y <? x)%float.

(** [c.lower()] and [c.upper()] on one ASCII character; any other
    byte is left as it is, so text outside ASCII (where Python's case
    maps can change or add characters) is outside this model. *)
Definition lower_char (c : ascii) : ascii :=
  let n := nat_of_ascii c in
  if (65 <=? n)%nat && (n <=? 90)%nat then ascii_of_nat (n + 32) else c.

Definition upper_char (c : ascii) : ascii :=
  let n := nat_of_ascii c in
  if (97 <=? n)%nat && (n <=? 122)%nat then ascii_of_nat (n - 32) else c.

Fixpoint lower (s : string) : string :=
  match s with
  | EmptyString => EmptyString
  | String c s' => String (lower_char c) (lower s')
  end.

Fixpoint upper (s : string) : string :=
  match s with
  | EmptyString => EmptyString
  | String c s' => String (upper_char c) (upper s')
  end.

(** [sub in s]: [sub] occurs in [s] as a contiguous substring. *)
Fixpoint str_in (sub s : string) : bool :=
  String.prefix sub s ||
  match s with
  | EmptyString => false
  | String _ s' => str_in sub s'
  end.

(** [d.get(k, default)] on a dict literal with string keys. *)
Fixpoint dict_get (d : list (string * string)) (k default : string) : string :=
  match d with
  | [] => default
  | (k', v) :: d' => if String.eqb k k' then v else dict_get d' k default
  end.

(** The substring relation [str_in] decides. *)
Definition occurs_in (sub s : string) : Prop :=
  exists before after : string, s = (before ++ sub ++ after)%string.

End Py.

Notation "x <- m ;; k" := (Py.bind m (fun x => k))
  (at level 61, m at next level, right associativity).

Infix ">?" := Py.gtb (at level 70, no associativity) : float_scope.

(** ** pandas / numpy arithmetic on float columns *)

Module Np.

(** Element-wise [/] of two float columns: IEEE division, which
    returns an infinity or NaN for a zero divisor instead of raising. *)
Definition divide (x y : float) : float := (x / y)%float.

(** [np.nan] *)
Definition nan : float := PrimFloat.nan.

End Np.

(** ** The external collaborators *)

(** A fitted model: [model.predict([features])[0]]. *)
Definition Model : Type := list float -> float.

(** The files [joblib.load] can see: a missing file is [None], and the
    load raises [FileNotFoundError]. *)
Definition Disk : Type := string -> option Model.

Definition joblib_load (disk : Disk) (path : string) : Py.result Model :=
  match disk path with
  | Some model => Py.Ok model
  | None => Py.Raise (Py.FileNotFoundError path)
  end.

(** ** [src/app.py] *)

Module App.

Local Open Scope string_scope.
Local Open Scope float_scope.

(** *** Sidebar: material selection (lines 19-33) *)

Definition material_options : list string :=
  ["Auto (via density)"; "Ti"; "SS"; "Al"].

Definition material_group (material_choice : string) (bulk_density : float)
  : string :=
  if (material_choice =? "Auto (via density)")%string then
    if bulk_density <? 3.5 then "al"
    else if (3.5 <=? bulk_density) && (bulk_density <? 6) then "ti"
    else "ss"
  else Py.lower (Py.lower material_choice).

(** *** The form (lines 21-22 and 35-48) *)

(** What the widgets return on one run of the script. *)
Record Inputs : Type := {
  material_choice : string;
  bulk_density : float;
  d10 : float;
  d50 : float;
  d90 : float;
  tap_density : float;
  hr : float;
  d23 : float;
  d34 : float;
  layer_thickness : float
}.

(** What the widgets guarantee of the values they return: a selectbox
    returns one of its options, and a [number_input] with a
    [min_value] returns a number that is at least that minimum. *)
Definition widgets_accept (i : Inputs) : bool :=
  existsb (String.eqb (material_choice i)) material_options
  && (0 <=? bulk_density i)
  && (1.0 <=? hr i)
  && (0.1 <=? layer_thickness i).

(** *** Derived metrics (lines 50-52) *)

Definition span (i : Inputs) : Py.result float :=
  Py.truediv (d90 i - d10 i) (d50 i).

Definition r23 (i : Inputs) : Py.result float :=
  Py.truediv (d23 i) (layer_thickness i).

Definition r34 (i : Inputs) : Py.result float :=
  Py.truediv (d34 i) (layer_thickness i).

(** *** Input check (lines 55-66) *)

Definition span_warning : string :=
  "Span is outside typical range (0.8–2.0).".
Definition r23_warning : string := "R23 is outside expected range.".
Definition r34_warning : string := "R34 is outside expected range.".
Definition bridging_warning : string :=
  "D[2,3] is greater than layer thickness — may cause bridging.".
Definition flowability_warning : string :=
  "HR is high — flowability may be poor.".

(** [if cond: warnings.append(msg)] *)
Definition append_if (cond : bool) (msg : string) (warnings : list string)
  : list string :=
  if cond then (warnings ++ [msg])%list else warnings.

Definition warnings (span r23 r34 d23 layer_thickness hr : float)
  : list string :=
  let warnings := [] in
  let warnings :=
    append_if ((span <? 0.8) || (span >? 2.0)) span_warning warnings in
  let warnings :=
    append_if ((r23 <? 0.05) || (r23 >? 1.2)) r23_warning warnings in
  let warnings :=
    append_if ((r34 <? 0.05) || (r34 >? 1.5)) r34_warning warnings in
  let warnings :=
    append_if (d23 >? layer_thickness) bridging_warning warnings in
  let warnings := append_if (hr >? 1.4) flowability_warning warnings in
  warnings.

(** *** Feature vector (lines 74-82) *)

(** [None] is the [else] branch: "Material model not found." and
    [st.stop()]. *)
Definition build_features (material_group : string)
    (r23 r34 span tap_density hr : float) : option (list float) :=
  if (material_group =? "ti")%string then
    Some [r23; span; tap_density]
  else if (material_group =? "ss")%string then
    Some [r23; r34; span; tap_density; hr]
  else if (material_group =? "al")%string then
    Some [r34; span; tap_density]
  else None.

(** *** One run of the interactive script (lines 19-129) *)

(** What the "Predict PBPD" block puts on the page. *)
Inductive Shown : Type :=
| NotRequested
| Success (features : list float) (prediction : float)
| Error (message : string).

Record Page : Type := {
  shown_warnings : list string;
  outcome : Shown
}.

Definition model_file (material_group : string) : string :=
  "model_" ++ material_group ++ ".pkl".

Definition predict_block (disk : Disk) (material_group : string)
    (r23 r34 span tap_density hr : float) : Shown :=
  match joblib_load disk (model_file (Py.lower material_group)) with
  | Py.Ok model =>
      match build_features material_group r23 r34 span tap_density hr with
      | Some features => Success features (model features)
      | None => Error "Material model not found."
      end
  | Py.Raise _ =>
      Error ("Model for '" ++ Py.upper material_group
             ++ "' not found. Make sure the model file exists.")
  end.

(** An uncaught exception ends the run: [Raise]. *)
Definition script (disk : Disk) (i : Inputs) (predict_clicked : bool)
  : Py.result Page :=
  let material_group := material_group (material_choice i) (bulk_density i) in
  span <- span i ;;
  r23 <- r23 i ;;
  r34 <- r34 i ;;
  let warnings := warnings span r23 r34 (d23 i) (layer_thickness i) (hr i) in
  Py.Ok {|
    shown_warnings := warnings;
    outcome :=
      if predict_clicked then
        predict_block disk material_group r23 r34 span (tap_density i) (hr i)
      else NotRequested
  |}.

(** *** Batch prediction via CSV (lines 136-187) *)

(** One row of an uploaded CSV that has the required columns and
    whose eight measurement columns are numeric (a text cell there
    makes the column arithmetic of lines 148-150 raise before any row
    is read, which has no counterpart here).
    [Material] is [str(row['Material'])]; [other_columns] are the
    columns the script never reads (a bulk density column, say). *)
Record Row : Type := {
  D10 : float;
  D50 : float;
  D90 : float;
  D_2_3 : float;
  D_3_4 : float;
  Tap_Density : float;
  HR : float;
  Effective_Layer_Thickness : float;
  Material : string;
  other_columns : list (string * string)
}.

(** The three columns added to the frame (lines 148-150). *)
Definition Span (row : Row) : float :=
  Np.divide (D90 row - D10 row) (D50 row).

Definition R23 (row : Row) : float :=
  Np.divide (D_2_3 row) (Effective_Layer_Thickness row).

Definition R34 (row : Row) : float :=
  Np.divide (D_3_4 row) (Effective_Layer_Thickness row).

(** The [if]/[elif] chain of lines 157-165: [model_used] and
    [features], or [None] when [model_used] stays [None]. *)
Definition route (mat : string) (row : Row) : option (string * list float) :=
  if Py.str_in "ti" mat then
    Some ("ti", [R23 row; Span row; Tap_Density row])
  else if Py.str_in "ss" mat || Py.str_in "316" mat then
    Some ("ss", [R23 row; R34 row; Span row; Tap_Density row; HR row])
  else if Py.str_in "al" mat then
    Some ("al", [R34 row; Span row; Tap_Density row])
  else None.

(** What one iteration appends to [predictions] (lines 154-175). A
    routed row reaches both [append] calls: the one inside
    [if model_used:] and the one after the [if]/[else]. *)
Definition loop_body (disk : Disk) (row : Row) (predictions : list float)
  : Py.result (list float) :=
  let mat := Py.lower (Material row) in
  match route mat row with
  | Some (model_used, features) =>
      model <- joblib_load disk (model_file model_used) ;;
      let pred := model features in
      let predictions := (predictions ++ [pred])%list in
      let pred := model features in
      let predictions := (predictions ++ [pred])%list in
      Py.Ok predictions
  | None =>
      let predictions := (predictions ++ [Np.nan])%list in
      Py.Ok predictions
  end.

Fixpoint loop (disk : Disk) (rows : list Row) (predictions : list float)
  : Py.result (list float) :=
  match rows with
  | [] => Py.Ok predictions
  | row :: rows' =>
      predictions <- loop_body disk row predictions ;;
      loop disk rows' predictions
  end.

(** [df[col] = values] for a list of values: pandas raises
    [ValueError] unless there is one value per row. *)
Definition assign_column (df : list Row) (values : list float)
  : Py.result (list (Row * float)) :=
  if (List.length values =? List.length df)%nat then
    Py.Ok (combine df values)
  else Py.Raise (Py.ValueError (List.length values) (List.length df)).

(** The frame with its [Predicted_PBPD_%] column (lines 147-177). *)
Definition batch (disk : Disk) (df : list Row)
  : Py.result (list (Row * float)) :=
  predictions <- loop disk df [] ;;
  assign_column df predictions.

(** *** Confidence label of the report (lines 89-93) *)

Definition confidence (material_group : string) : string :=
  Py.dict_get [("ti", "High"); ("ss", "Moderate"); ("al", "Low")]
              material_group "Unknown".

(** *** The batch section around the frame (lines 134-179) *)

Definition required_cols : list string :=
  ["D10_µm"; "D50_µm"; "D90_µm";
   "D[2,3]"; "D[3,4]"; "Tap_Density_g/cm³";
   "HR"; "Effective_Layer_Thickness_µm"; "Material"].

(** An uploaded CSV as [pd.read_csv] returns it: the header, and the
    rows as the loop reads them when the required columns are there. *)
Record Frame : Type := {
  columns : list string;
  rows : list Row
}.

(** [all(col in df_csv.columns for col in required_cols)] *)
Definition has_required_cols (columns : list string) : bool :=
  forallb (fun col => existsb (String.eqb col) columns) required_cols.

(** What the section shows: nothing without an upload, the
    missing-columns error, or "Batch prediction complete." with the
    first five rows of [Material] and [Predicted_PBPD_%] and the frame
    offered for download. *)
Inductive BatchShown : Type :=
| NoUpload
| MissingColumns
| Complete (head : list (string * float)) (df : list (Row * float)).

Definition batch_section (disk : Disk) (csv_file : option Frame)
  : Py.result BatchShown :=
  match csv_file with
  | None => Py.Ok NoUpload
  | Some df_csv =>
      if negb (has_required_cols (columns df_csv)) then Py.Ok MissingColumns
      else
        df <- batch disk (rows df_csv) ;;
        Py.Ok (Complete
                 (firstn 5 (map (fun rp => (Material (fst rp), snd rp)) df))
                 df)
  end.

End App.

(** ** [src/project/app.py] *)

Module Project.

Local Open Scope string_scope.
Local Open Scope float_scope.

Definition material_options : list string :=
  ["Auto (via density)"; "Ti"; "SS"; "Al"].

Definition material_group (material_choice : string) (bulk_density : float)
  : string :=
  if (material_choice =? "Auto (via density)")%string then
    if bulk_density <? 3.5 then "al"
    else if (3.5 <=? bulk_density) && (bulk_density <? 6) then "ti"
    else "ss"
  else Py.lower material_choice.

(** The form of this variant has a "Span" field of its own (line 41). *)
Record Inputs : Type := {
  material_choice : string;
  bulk_density : float;
  d10 : float;
  d50 : float;
  d90 : float;
  span : float;
  tap_density : float;
  hr : float;
  d23 : float;
  d34 : float;
  layer_thickness : float
}.

Definition widgets_accept (i : Inputs) : bool :=
  existsb (String.eqb (material_choice i)) material_options
  && (0 <=? bulk_density i)
  && (1.0 <=? hr i)
  && (0.1 <=? layer_thickness i).

Definition r23 (i : Inputs) : Py.result float :=
  Py.truediv (d23 i) (layer_thickness i).

Definition r34 (i : Inputs) : Py.result float :=
  Py.truediv (d34 i) (layer_thickness i).

(** Input check (lines 54-61): three checks. *)
Definition warnings (span r23 r34 : float) : list string :=
  let warnings := [] in
  let warnings :=
    App.append_if ((span <? 0.8) || (span >? 2.0)) App.span_warning warnings in
  let warnings :=
    App.append_if ((r23 <? 0.05) || (r23 >? 1.2)) App.r23_warning warnings in
  let warnings :=
    App.append_if ((r34 <? 0.05) || (r34 >? 1.5)) App.r34_warning warnings in
  warnings.

Definition build_features (material_group : string)
    (r23 r34 span tap_density hr : float) : option (list float) :=
  if (material_group =? "ti")%string then
    Some [r23; span; tap_density]
  else if (material_group =? "ss")%string then
    Some [r23; r34; span; tap_density; hr]
  else if (material_group =? "al")%string then
    Some [r34; span; tap_density]
  else None.

Definition predict_block (disk : Disk) (material_group : string)
    (r23 r34 span tap_density hr : float) : App.Shown :=
  match joblib_load disk (App.model_file material_group) with
  | Py.Ok model =>
      match build_features material_group r23 r34 span tap_density hr with
      | Some features => App.Success features (model features)
      | None => App.Error "Material model not found."
      end
  | Py.Raise _ =>
      App.Error ("Model for '" ++ Py.upper material_group
                 ++ "' not found. Make sure the model file exists.")
  end.

Definition script (disk : Disk) (i : Inputs) (predict_clicked : bool)
  : Py.result App.Page :=
  let material_group := material_group (material_choice i) (bulk_density i) in
  r23 <- r23 i ;;
  r34 <- r34 i ;;
  let warnings := warnings (span i) r23 r34 in
  Py.Ok {|
    App.shown_warnings := warnings;
    App.outcome :=
      if predict_clicked then
        predict_block disk material_group r23 r34 (span i)
                      (tap_density i) (hr i)
      else App.NotRequested
  |}.

End Project.

Local Open Scope float_scope.
Local Open Scope string_scope.

(** ** The spec's vocabulary *)

(** The closed set of material groups of §3, the key each has in the
    code, and the feature table of §4.3. *)
Inductive MaterialGroup : Type := Titanium | StainlessSteel | Aluminum.

Definition key (g : MaterialGroup) : string :=
  match g with
  | Titanium => "ti"
  | StainlessSteel => "ss"
  | Aluminum => "al"
  end.

Definition feature_table (g : MaterialGroup)
    (R23 R34 Span TapDensity HR : float) : list float :=
  match g with
  | Titanium => [R23; Span; TapDensity]
  | StainlessSteel => [R23; R34; Span; TapDensity; HR]
  | Aluminum => [R34; Span; TapDensity]
  end.

(** The feature vector a CSV row has under the §4.3 table. *)
Definition row_features (g : MaterialGroup) (row : App.Row) : list float :=
  feature_table g (App.R23 row) (App.R34 row) (App.Span row)
                (App.Tap_Density row) (App.HR row).

(** §4.3 in the spec's words: substring containment on the lower-cased
    text, first match wins, in the order "ti", then "ss" or "316", then
    "al". *)
Inductive batch_class (mat : string) : option MaterialGroup -> Prop :=
| class_ti :
    Py.occurs_in "ti" mat -> batch_class mat (Some Titanium)
| class_ss :
    ~ Py.occurs_in "ti" mat ->
    Py.occurs_in "ss" mat \/ Py.occurs_in "316" mat ->
    batch_class mat (Some StainlessSteel)
| class_al :
    ~ Py.occurs_in "ti" mat ->
    ~ Py.occurs_in "ss" mat -> ~ Py.occurs_in "316" mat ->
    Py.occurs_in "al" mat -> batch_class mat (Some Aluminum)
| class_unmatched :
    ~ Py.occurs_in "ti" mat ->
    ~ Py.occurs_in "ss" mat -> ~ Py.occurs_in "316" mat ->
    ~ Py.occurs_in "al" mat -> batch_class mat None.

(** ** Observations on the batch loop *)

(** [model_used] at the end of the [if]/[elif] chain, for one row. *)
Definition model_used (row : App.Row) : option string :=
  option_map fst (App.route (Py.lower (App.Material row)) row).

Definition routed (row : App.Row) : bool :=
  match model_used row with Some _ => true | None => false end.

(** ** Sample models, directories, submissions and rows *)

(** A model that answers with the second feature it is handed (Span,
    for the Titanium and Aluminum vectors). *)
Definition probe : Model := fun features => nth 1 features 0%float.

(** A directory that holds every model file. *)
Definition full_disk : Disk := fun _ => Some probe.

(** A directory with every model file but the Titanium one. *)
Definition disk_without_ti : Disk :=
  fun path => if (path =? "model_ti.pkl")%string then None else Some probe.

(** The form of [src/app.py] with its default measurements (lines 22
    and 39-48), a given material choice and a given D50. *)
Definition inputs_of (choice : string) (d50 : float) : App.Inputs := {|
  App.material_choice := choice;
  App.bulk_density := 4.5;
  App.d10 := 15.0;
  App.d50 := d50;
  App.d90 := 55.0;
  App.tap_density := 5.0;
  App.hr := 1.2;
  App.d23 := 30.0;
  App.d34 := 42.0;
  App.layer_thickness := 60.0
|}.

(** The form as it first appears. *)
Definition default_inputs : App.Inputs :=
  inputs_of "Auto (via density)" 35.0.

(** The form of [src/project/app.py] with its default measurements and
    given values of its "Span" and "Hausner Ratio" fields. *)
Definition project_inputs_of (span hr : float) : Project.Inputs := {|
  Project.material_choice := "Auto (via density)";
  Project.bulk_density := 4.5;
  Project.d10 := 15.0;
  Project.d50 := 35.0;
  Project.d90 := 55.0;
  Project.span := span;
  Project.tap_density := 5.0;
  Project.hr := hr;
  Project.d23 := 30.0;
  Project.d34 := 42.0;
  Project.layer_thickness := 60.0
|}.

Definition project_defaults : Project.Inputs := project_inputs_of 1.2 1.2.

(** Span 2.5 and HR 1.5, everything else in range. *)
Definition project_wide_span : Project.Inputs := project_inputs_of 2.5 1.5.

(** A CSV row with the default measurements, a given D50, a given
    [Material] and given further columns. *)
Definition row_with (d50 : float) (material : string)
    (others : list (string * string)) : App.Row := {|
  App.D10 := 15.0;
  App.D50 := d50;
  App.D90 := 55.0;
  App.D_2_3 := 30.0;
  App.D_3_4 := 42.0;
  App.Tap_Density := 5.0;
  App.HR := 1.2;
  App.Effective_Layer_Thickness := 60.0;
  App.Material := material;
  App.other_columns := others
|}.

Definition row_of (material : string) : App.Row := row_with 35.0 material [].

(** A row with D50 = 0 and a routable material. *)
Definition zero_d50_row : App.Row := row_with 0.0 "Ti" [].

(** A row with Material "Auto" and a bulk-density column. *)
Definition auto_row (density : string) (d50 : float) : App.Row :=
  row_with d50 "Auto" [("Bulk_Density", density)].

(** ** Relating the two scripts and the two flows *)

(** The submission of [src/project/app.py] with the same field values
    as one of [src/app.py] and a given entry in its "Span" field. *)
Definition to_project (i : App.Inputs) (span : float) : Project.Inputs := {|
  Project.material_choice := App.material_choice i;
  Project.bulk_density := App.bulk_density i;
  Project.d10 := App.d10 i;
  Project.d50 := App.d50 i;
  Project.d90 := App.d90 i;
  Project.span := span;
  Project.tap_density := App.tap_density i;
  Project.hr := App.hr i;
  Project.d23 := App.d23 i;
  Project.d34 := App.d34 i;
  Project.layer_thickness := App.layer_thickness i
|}.

(** The CSV row with the measurements of a submission and a given
    [Material] text. *)
Definition row_of_inputs (i : App.Inputs) (material : string) : App.Row := {|
  App.D10 := App.d10 i;
  App.D50 := App.d50 i;
  App.D90 := App.d90 i;
  App.D_2_3 := App.d23 i;
  App.D_3_4 := App.d34 i;
  App.Tap_Density := App.tap_density i;
  App.HR := App.hr i;
  App.Effective_Layer_Thickness := App.layer_thickness i;
  App.Material := material;
  App.other_columns := []
|}.

(** The three groups by the density band that resolves to them. *)
Definition density_rank (material_group : string) : nat :=
  if (material_group =? "al")%string then 0
  else if (material_group =? "ti")%string then 1
  else 2.

(** The confidence label of each group. *)
Definition group_confidence (g : MaterialGroup) : string :=
  match g with
  | Titanium => "High"
  | StainlessSteel => "Moderate"
  | Aluminum => "Low"
  end.

(** The frame in which every row carries the missing-prediction marker. *)
Definition all_missing (df : list App.Row) : list (App.Row * float) :=
  map (fun row => (row, Np.nan)) df.

(** ** Order and division facts of binary64 *)

Module FloatFacts.

Local Open Scope float_scope.

(** Every comparison of the IEEE specification, case by case. *)
Ltac sf_cases :=
  repeat match goal with
  | s : bool |- _ => destruct s
  end;
  cbn [SFcompare SFltb SFleb SFeqb] in *;
  repeat match goal with
  | |- context [Z.compare ?a ?b] => destruct (Z.compare_spec a b)
  | H : context [Z.compare ?a ?b] |- _ => destruct (Z.compare_spec a b)
  | |- context [Pos.compare_cont Eq ?a ?b] =>
      change (Pos.compare_cont Eq a b) with (Pos.compare a b);
      destruct (Pos.compare_spec a b)
  | H : context [Pos.compare_cont Eq ?a ?b] |- _ =>
      change (Pos.compare_cont Eq a b) with (Pos.compare a b) in H;
      destruct (Pos.compare_spec a b)
  end;
  cbn [CompOpp] in *;
  try reflexivity; try discriminate; try lia.

Lemma SFleb_trans (x y z : spec_float) :
  SFleb x y = true -> SFleb y z = true -> SFleb x z = true.
Proof. destruct x, y, z; intros; sf_cases. Qed.

Lemma SFltb_false_leb (x y : spec_float) :
  SFeqb x x = true -> SFeqb y y = true ->
  SFltb x y = false -> SFleb y x = true.
Proof. destruct x, y; intros; sf_cases. Qed.

Lemma SFleb_ltb_false (x y : spec_float) :
  SFleb x y = true -> SFltb y x = false.
Proof. destruct x, y; intros; sf_cases. Qed.

Lemma SFleb_ltb_trans (x y z : spec_float) :
  SFleb x y = true -> SFltb y z = true -> SFltb x z = true.
Proof. destruct x, y, z; intros; sf_cases. Qed.

Lemma SFleb_ordered (x y : spec_float) :
  SFleb x y = true -> SFeqb x x = true /\ SFeqb y y = true.
Proof. destruct x, y; intros; split; sf_cases. Qed.

Lemma SFeqb_zero (x : spec_float) :
  SFeqb x (S754_zero false) = true -> exists s, x = S754_zero s.
Proof. destruct x; intros; sf_cases; eauto. Qed.

(** The same facts on the primitive floats. *)

Lemma leb_trans (x y z : float) :
  (x <=? y) = true -> (y <=? z) = true -> (x <=? z) = true.
Proof. rewrite !leb_spec. apply SFleb_trans. Qed.

Lemma ltb_false_leb (x y : float) :
  (x =? x) = true -> (y =? y) = true ->
  (x <? y) = false -> (y <=? x) = true.
Proof. rewrite !eqb_spec, ltb_spec, leb_spec. apply SFltb_false_leb. Qed.

Lemma leb_ltb_false (x y : float) :
  (x <=? y) = true -> (y <? x) = false.
Proof. rewrite leb_spec, ltb_spec. apply SFleb_ltb_false. Qed.

Lemma leb_ltb_trans (x y z : float) :
  (x <=? y) = true -> (y <? z) = true -> (x <? z) = true.
Proof. rewrite leb_spec, !ltb_spec. apply SFleb_ltb_trans. Qed.

Lemma leb_ordered (x y : float) :
  (x <=? y) = true -> (x =? x) = true /\ (y =? y) = true.
Proof. rewrite leb_spec, !eqb_spec. apply SFleb_ordered. Qed.

Lemma eqb_zero (x : float) :
  (x =? 0) = true -> exists s, Prim2SF x = S754_zero s.
Proof. rewrite eqb_spec. apply SFeqb_zero. Qed.

(** A number at or above a positive one is not a zero. *)
Lemma above_positive_nonzero (c x : float) :
  (0 <? c) = true -> (c <=? x) = true -> (x =? 0) = false.
Proof.
  rewrite ltb_spec, leb_spec, eqb_spec.
  change (Prim2SF 0) with (S754_zero false).
  destruct (Prim2SF c), (Prim2SF x); intros; sf_cases.
Qed.

(** IEEE division by a zero is an infinity or NaN. *)
Lemma div_zero_not_finite (x y : float) :
  (y =? 0) = true -> is_finite (x / y) = false.
Proof.
  intros [s Hy]%eqb_zero.
  unfold is_finite, is_nan, is_infinity.
  rewrite !eqb_spec, abs_spec, div_spec, Hy.
  change (Prim2SF infinity) with (S754_infinity false).
  destruct s, (Prim2SF x) as [[]|[]| |[] m e]; reflexivity.
Qed.

(** [Py.truediv] in terms of its divisor. *)
Lemma truediv_nonzero (x y : float) :
  (y =? 0) = false -> Py.truediv x y = Py.Ok (x / y).
Proof. unfold Py.truediv. now intros ->. Qed.

Lemma truediv_zero (x y : float) :
  (y =? 0) = true -> Py.truediv x y = Py.Raise Py.ZeroDivisionError.
Proof. unfold Py.truediv. now intros ->. Qed.

End FloatFacts.

(** ** Substring search *)

Module StrFacts.

Local Open Scope string_scope.

Lemma prefix_app (sub s : string) :
  String.prefix sub s = true <-> exists after, s = sub ++ after.
Proof.
  revert s. induction sub as [|c sub IH]; intros s.
  - split; [intros _; now exists s | intros _; now destruct s].
  - destruct s as [|d s]; simpl.
    + split; [discriminate | intros [after H]; discriminate].
    + destruct (Ascii.ascii_dec c d) as [->|Hne].
      * rewrite IH. split; intros [after H]; exists after.
        -- now rewrite H.
        -- now injection H.
      * split; [discriminate | intros [after H]].
        injection H as H1 H2. now elim Hne.
Qed.

(** [Py.str_in] decides the substring relation. *)
Lemma str_in_occurs (sub s : string) :
  Py.str_in sub s = true <-> Py.occurs_in sub s.
Proof.
  unfold Py.occurs_in. induction s as [|c s IH].
  - cbn [Py.str_in]. rewrite orb_false_r, prefix_app. split.
    + intros [after H]. now exists "", after.
    + intros [[|b before] [after H]]; [now exists after | discriminate].
  - cbn [Py.str_in]. rewrite orb_true_iff, prefix_app, IH. split.
    + intros [[after H] | (before & after & H)].
      * now exists "", after.
      * exists (String c before), after. simpl. now rewrite H.
    + intros [[|b before] [after H]].
      * left. now exists after.
      * right. exists before, after. simpl in H. now injection H.
Qed.

Lemma str_in_absent (sub s : string) :
  Py.str_in sub s = false <-> ~ Py.occurs_in sub s.
Proof.
  rewrite <- str_in_occurs. destruct (Py.str_in sub s); split; intros H;
    try reflexivity; try discriminate; try (intros H'; discriminate).
  now elim H.
Qed.

End StrFacts.

(** ** Claims *)

Lemma lower_key (g : MaterialGroup) : Py.lower (key g) = key g.
Proof. now destruct g. Qed.

(** The batch chain gives a text the vector of the group the spec's
    classification gives it, and nothing to an unmatched text. *)
Lemma route_class (mat : string) (row : App.Row) (og : option MaterialGroup) :
  batch_class mat og ->
  App.route mat row = option_map (fun g => (key g, row_features g row)) og.
Proof.
  unfold App.route.
  intros [Hti | Hti Hss | Hti Hss H316 Hal | Hti Hss H316 Hal].
  - apply StrFacts.str_in_occurs in Hti. now rewrite Hti.
  - apply StrFacts.str_in_absent in Hti. rewrite Hti.
    assert (Hor : Py.str_in "ss" mat || Py.str_in "316" mat = true).
    { apply orb_true_iff.
      destruct Hss as [H | H]; apply StrFacts.str_in_occurs in H; auto. }
    now rewrite Hor.
  - apply StrFacts.str_in_absent in Hti, Hss, H316.
    apply StrFacts.str_in_occurs in Hal.
    now rewrite Hti, Hss, H316, Hal.
  - apply StrFacts.str_in_absent in Hti, Hss, H316, Hal.
    now rewrite Hti, Hss, H316, Hal.
Qed.

(** C1. For every material group the code builds exactly the ordered
    feature vector of the §4.3 table: [build_features] on the group's
    key, the interactive "Predict PBPD" block (which hands that vector
    to the group's model), and the batch chain (which gives a row whose
    text is classified to a group exactly that group's key and the
    table's vector of the row's R23, R34, Span, Tap density and HR, and
    gives an unmatched text nothing); every option of the
    selectbox resolves to one of the three keys; for StainlessSteel with
    R23=0.5, R34=0.7, Span=1.14, TapDensity=5.0 and HR=1.2 the vector
    is [0.5, 0.7, 1.14, 5.0, 1.2]. *)
Theorem C1_feature_vector_order
    (disk : Disk) (model : Model) (g : MaterialGroup)
    (r23 r34 span tap_density hr : float) (mat : string) (row : App.Row)
    (og : option MaterialGroup)
    (Hmodel : disk (App.model_file (key g)) = Some model)
    (Hclass : batch_class mat og) :
  App.build_features (key g) r23 r34 span tap_density hr
    = Some (feature_table g r23 r34 span tap_density hr)
  /\ App.predict_block disk (key g) r23 r34 span tap_density hr
    = App.Success (feature_table g r23 r34 span tap_density hr)
                  (model (feature_table g r23 r34 span tap_density hr))
  /\ App.route mat row
     = option_map
         (fun g' =>
            (key g',
             feature_table g' (App.R23 row) (App.R34 row) (App.Span row)
                           (App.Tap_Density row) (App.HR row))) og
  /\ App.route (Py.lower "SS316L") (row_of "SS316L")
     = Some ("ss", [0.5; 0.7; 1.1428571428571428; 5.0; 1.2]%float)
  /\ Forall (fun material_choice =>
               forall bulk_density, exists g' : MaterialGroup,
                 App.material_group material_choice bulk_density = key g')
            App.material_options
  /\ App.build_features "ss" 0.5 0.7 1.14 5.0 1.2
    = Some [0.5; 0.7; 1.14; 5.0; 1.2]%float.
Proof.
  assert (Hb : App.build_features (key g) r23 r34 span tap_density hr
               = Some (feature_table g r23 r34 span tap_density hr))
    by now destruct g.
  split; [| split; [| split; [| split; [| split]]]].
  - exact Hb.
  - unfold App.predict_block, joblib_load.
    now rewrite lower_key, Hmodel, Hb.
  - exact (route_class mat row og Hclass).
  - vm_compute; reflexivity.
  - repeat constructor; intros bulk_density.
    + unfold App.material_group.
      change ("Auto (via density)" =? "Auto (via density)")%string with true.
      cbv iota.
      destruct (bulk_density <? 3.5)%float; [now exists Aluminum |].
      destruct ((3.5 <=? bulk_density) && (bulk_density <? 6))%float;
        [now exists Titanium | now exists StainlessSteel].
    + now exists Titanium.
    + now exists StainlessSteel.
    + now exists Aluminum.
  - reflexivity.
Qed.

Lemma C1_feature_vector_order_witness :
  full_disk (App.model_file (key StainlessSteel)) = Some probe
  /\ batch_class "ss316l" (Some StainlessSteel)
  /\ App.predict_block full_disk "ss" 0.5 0.7 1.14 5.0 1.2
     = App.Success [0.5; 0.7; 1.14; 5.0; 1.2]%float 0.7%float
  /\ App.route "ss316l" (row_of "SS316L")
     = Some ("ss", [0.5; 0.7; 1.1428571428571428; 5.0; 1.2]%float).
Proof.
  pose (Hclass :=
    class_ss "ss316l"
      (proj1 (StrFacts.str_in_absent "ti" "ss316l") eq_refl)
      (or_introl (proj1 (StrFacts.str_in_occurs "ss" "ss316l") eq_refl))).
  pose proof (C1_feature_vector_order
                full_disk probe StainlessSteel 0.5 0.7 1.14 5.0 1.2
                "ss316l" (row_of "SS316L") (Some StainlessSteel)
                eq_refl Hclass) as (_ & Hblock & Hroute & _).
  split; [reflexivity | split; [exact Hclass | split; [exact Hblock |]]].
  exact Hroute.
Defined.

(** C2. With the "Auto (via density)" choice and a bulk density of at
    least 0, the resolved group is "al" exactly when the density is
    below 3.5, "ti" exactly when it is at least 3.5 and below 6, and
    "ss" exactly when it is at least 6; it is one of the three, 3.5
    resolves to "ti" and 6.0 to "ss"; both scripts agree. *)
Theorem C2_auto_resolution_partition
    (bulk_density : float) (Hmin : (0 <=? bulk_density)%float = true) :
  let g := App.material_group "Auto (via density)" bulk_density in
  (g = key Aluminum <-> (bulk_density <? 3.5)%float = true)
  /\ (g = key Titanium <->
        (3.5 <=? bulk_density)%float = true
        /\ (bulk_density <? 6)%float = true)
  /\ (g = key StainlessSteel <-> (6 <=? bulk_density)%float = true)
  /\ (exists m : MaterialGroup, g = key m)
  /\ Project.material_group "Auto (via density)" bulk_density = g
  /\ App.material_group "Auto (via density)" 3.5 = key Titanium
  /\ App.material_group "Auto (via density)" 6.0 = key StainlessSteel.
Proof.
  destruct (FloatFacts.leb_ordered _ _ Hmin) as [_ Hnum].
  assert (H35 : (3.5 =? 3.5)%float = true) by reflexivity.
  assert (H6 : (6 =? 6)%float = true) by reflexivity.
  assert (Hlow : (3.5 <=? bulk_density)%float = true ->
                 (bulk_density <? 3.5)%float = false)
    by apply FloatFacts.leb_ltb_false.
  assert (Hhigh : (6 <=? bulk_density)%float = true ->
                  (bulk_density <? 6)%float = false)
    by apply FloatFacts.leb_ltb_false.
  assert (Hmid : (6 <=? bulk_density)%float = true ->
                 (3.5 <=? bulk_density)%float = true)
    by (apply FloatFacts.leb_trans; reflexivity).
  pose proof (FloatFacts.ltb_false_leb bulk_density 3.5 Hnum H35) as Hge35.
  pose proof (FloatFacts.ltb_false_leb bulk_density 6 Hnum H6) as Hge6.
  unfold App.material_group, Project.material_group. cbn [String.eqb].
  change ("Auto (via density)" =? "Auto (via density)")%string with true.
  cbv iota.
  destruct (bulk_density <? 3.5)%float eqn:E1;
    destruct (3.5 <=? bulk_density)%float eqn:E2;
    destruct (bulk_density <? 6)%float eqn:E3;
    destruct (6 <=? bulk_density)%float eqn:E4;
    cbn [andb key];
    try (specialize (Hlow eq_refl); discriminate);
    try (specialize (Hhigh eq_refl); discriminate);
    try (specialize (Hmid eq_refl); discriminate);
    try (specialize (Hge35 eq_refl); discriminate);
    try (specialize (Hge6 eq_refl); discriminate);
    (repeat split; try reflexivity; try discriminate;
     try (intros [? ?]; discriminate);
     try (now exists Aluminum); try (now exists Titanium);
     try (now exists StainlessSteel)).
Qed.

Lemma C2_auto_resolution_partition_witness :
  (0 <=? 4.5)%float = true
  /\ App.material_group "Auto (via density)" 4.5 = key Titanium.
Proof.
  split; [reflexivity |].
  destruct (C2_auto_resolution_partition 4.5 eq_refl) as (_ & Hti & _).
  apply Hti. split; reflexivity.
Defined.

(** Two float literals that differ. *)
Ltac float_neq :=
  let H := fresh in
  intro H;
  match type of H with
  | ?x = _ => apply (f_equal (PrimFloat.eqb x)) in H; vm_compute in H
  end;
  discriminate H.

(** C3, as stated, fails on [src/project/app.py]: with the form's
    defaults (D10=15, D50=35, D90=55, Span field 1.2) the feature vector
    carries the entered 1.2, and (D90 - D10) / D50 = 1.1428571428571428
    is not in it. *)
Lemma C3_counterexample :
  Project.script full_disk project_defaults true
  = Py.Ok {| App.shown_warnings := [];
             App.outcome := App.Success [0.5; 1.2; 5.0]%float 1.2%float |}
  /\ ((Project.d90 project_defaults - Project.d10 project_defaults)
      / Project.d50 project_defaults)%float = 1.1428571428571428%float
  /\ ~ In 1.1428571428571428%float [0.5; 1.2; 5.0]%float.
Proof.
  split; [reflexivity | split; [reflexivity |]].
  intros [H | [H | [H | []]]]; revert H; float_neq.
Qed.

(** C3, amended. In [src/app.py] the metrics used for the warnings and
    for the feature vector are recomputed on every run from the sample
    alone, as Span = (D90 - D10) / D50, R23 = D[2,3] / LayerThickness
    and R34 = D[3,4] / LayerThickness, in the interactive script and in
    the three columns of the batch frame, and the feature vector the
    batch chain builds for a row, and hands to the model, is the §4.3
    vector of those three quotients of the row's own cells and of its
    Tap density and HR; D10=15, D50=35, D90=55 gives
    Span = 1.1428571428571428. In [src/project/app.py] only R23 and R34
    are recomputed: Span is the value of the form's own "Span" field. *)
Theorem C3_metrics_recomputed
    (disk : Disk) (i : App.Inputs) (j : Project.Inputs) (clicked : bool)
    (row : App.Row) (g0 : MaterialGroup) (model : Model)
    (predictions : list float)
    (Hd50 : (App.d50 i =? 0)%float = false)
    (Hlt : (App.layer_thickness i =? 0)%float = false)
    (Hlt' : (Project.layer_thickness j =? 0)%float = false)
    (Hclass : batch_class (Py.lower (App.Material row)) (Some g0))
    (Hmodel : disk (App.model_file (key g0)) = Some model) :
  let span := ((App.d90 i - App.d10 i) / App.d50 i)%float in
  let r23 := (App.d23 i / App.layer_thickness i)%float in
  let r34 := (App.d34 i / App.layer_thickness i)%float in
  let g := App.material_group (App.material_choice i) (App.bulk_density i) in
  let r23' := (Project.d23 j / Project.layer_thickness j)%float in
  let r34' := (Project.d34 j / Project.layer_thickness j)%float in
  let g' :=
    Project.material_group (Project.material_choice j)
                           (Project.bulk_density j) in
  App.script disk i clicked
  = Py.Ok {|
      App.shown_warnings :=
        App.warnings span r23 r34 (App.d23 i) (App.layer_thickness i)
                     (App.hr i);
      App.outcome :=
        if clicked then
          App.predict_block disk g r23 r34 span (App.tap_density i) (App.hr i)
        else App.NotRequested |}
  /\ App.Span row = ((App.D90 row - App.D10 row) / App.D50 row)%float
  /\ App.R23 row = (App.D_2_3 row / App.Effective_Layer_Thickness row)%float
  /\ App.R34 row = (App.D_3_4 row / App.Effective_Layer_Thickness row)%float
  /\ (let features :=
        feature_table g0
          (App.D_2_3 row / App.Effective_Layer_Thickness row)
          (App.D_3_4 row / App.Effective_Layer_Thickness row)
          ((App.D90 row - App.D10 row) / App.D50 row)
          (App.Tap_Density row) (App.HR row) in
      App.route (Py.lower (App.Material row)) row = Some (key g0, features)
      /\ App.loop_body disk row predictions
         = Py.Ok (predictions ++ [model features; model features])%list)
  /\ App.span default_inputs = Py.Ok 1.1428571428571428%float
  /\ Project.script disk j clicked
     = Py.Ok {|
         App.shown_warnings := Project.warnings (Project.span j) r23' r34';
         App.outcome :=
           if clicked then
             Project.predict_block disk g' r23' r34' (Project.span j)
                                   (Project.tap_density j) (Project.hr j)
           else App.NotRequested |}.
Proof.
  cbv zeta.
  pose proof (route_class _ row _ Hclass) as Hroute. cbn [option_map] in Hroute.
  split; [| split; [| split; [| split; [| split; [| split]]]]];
    try reflexivity.
  - unfold App.script, App.span, App.r23, App.r34.
    now rewrite !FloatFacts.truediv_nonzero by assumption.
  - split; [exact Hroute |].
    unfold App.loop_body, joblib_load. rewrite Hroute. cbn [Py.bind].
    rewrite Hmodel. cbn [Py.bind]. now rewrite <- app_assoc.
  - unfold Project.script, Project.r23, Project.r34.
    now rewrite !FloatFacts.truediv_nonzero by assumption.
Qed.

Lemma C3_metrics_recomputed_witness :
  batch_class (Py.lower "Ti-6Al-4V") (Some Titanium)
  /\ App.script full_disk default_inputs true
     = Py.Ok {| App.shown_warnings := [];
                App.outcome :=
                  App.Success [0.5; 1.1428571428571428; 5.0]%float
                              1.1428571428571428%float |}
  /\ App.route (Py.lower "Ti-6Al-4V") (row_of "Ti-6Al-4V")
     = Some ("ti", [0.5; 1.1428571428571428; 5.0]%float)
  /\ App.loop_body full_disk (row_of "Ti-6Al-4V") []
     = Py.Ok [1.1428571428571428%float; 1.1428571428571428%float].
Proof.
  pose (Hclass :=
    class_ti (Py.lower "Ti-6Al-4V")
      (proj1 (StrFacts.str_in_occurs "ti" (Py.lower "Ti-6Al-4V")) eq_refl)).
  pose proof (C3_metrics_recomputed full_disk default_inputs project_defaults
                true (row_of "Ti-6Al-4V") Titanium probe []
                eq_refl eq_refl eq_refl Hclass eq_refl)
    as (Hscript & _ & _ & _ & [Hroute Hbody] & _).
  split; [exact Hclass | split; [exact Hscript | split]].
  - exact Hroute.
  - exact Hbody.
Defined.

(** C4, as stated, fails in the batch flow: for a row with D50 = 0 and
    Material "Ti" nothing is raised, Span is infinity, the feature
    vector handed to the model is [0.5, inf, 5.0], and the model (which
    here answers with its second feature) is called on it. *)
Lemma C4_counterexample :
  App.Span zero_d50_row = infinity
  /\ App.route (Py.lower (App.Material zero_d50_row)) zero_d50_row
     = Some ("ti", [0.5; infinity; 5.0]%float)
  /\ App.loop_body full_disk zero_d50_row [] = Py.Ok [infinity; infinity].
Proof. repeat split. Qed.

(** Every routed row's feature vector holds Span and at least one of
    R23 and R34. *)
Lemma route_features (mat : string) (row : App.Row)
    (model_used : string) (features : list float) :
  App.route mat row = Some (model_used, features) ->
  In (App.Span row) features
  /\ (In (App.R23 row) features \/ In (App.R34 row) features).
Proof.
  unfold App.route.
  destruct (Py.str_in "ti" mat);
    [| destruct (Py.str_in "ss" mat || Py.str_in "316" mat);
       [| destruct (Py.str_in "al" mat); [| discriminate]]];
    intros [= <- <-]; simpl; tauto.
Qed.

(** C4, amended. A zero D50 or LayerThickness makes the interactive
    script of [src/app.py] stop with Python's ZeroDivisionError before
    any warning or feature vector exists. The batch flow raises nothing
    for such a row: the affected columns (Span for D50, R23 and R34 for
    LayerThickness) hold an infinity or NaN, and for a routed row whose
    model loads, a feature vector containing such a value is handed to
    the model and its answer is appended. *)
Theorem C4_zero_denominator
    (disk : Disk) (i : App.Inputs) (clicked : bool)
    (row : App.Row) (predictions : list float)
    (model_used : string) (features : list float) (model : Model)
    (Hi : (App.d50 i =? 0)%float = true
          \/ (App.layer_thickness i =? 0)%float = true)
    (Hrow : (App.D50 row =? 0)%float = true
            \/ (App.Effective_Layer_Thickness row =? 0)%float = true)
    (Hroute : App.route (Py.lower (App.Material row)) row
              = Some (model_used, features))
    (Hmodel : disk (App.model_file model_used) = Some model) :
  App.script disk i clicked = Py.Raise Py.ZeroDivisionError
  /\ ((App.D50 row =? 0)%float = true -> is_finite (App.Span row) = false)
  /\ ((App.Effective_Layer_Thickness row =? 0)%float = true ->
      is_finite (App.R23 row) = false /\ is_finite (App.R34 row) = false)
  /\ (exists x : float, In x features /\ is_finite x = false)
  /\ App.loop_body disk row predictions
     = Py.Ok (predictions ++ [model features; model features])%list.
Proof.
  split; [| split; [| split; [| split]]].
  - unfold App.script, App.span, App.r23, App.r34.
    destruct (App.d50 i =? 0)%float eqn:E.
    + now rewrite (FloatFacts.truediv_zero _ _ E).
    + destruct Hi as [Hi | Hi]; [discriminate |].
      rewrite (FloatFacts.truediv_nonzero _ _ E).
      now rewrite (FloatFacts.truediv_zero _ _ Hi).
  - apply FloatFacts.div_zero_not_finite.
  - intros Hz. split; now apply FloatFacts.div_zero_not_finite.
  - destruct (route_features _ _ _ _ Hroute) as [Hspan Hr].
    destruct Hrow as [Hz | Hz].
    + exists (App.Span row). split; [exact Hspan |].
      now apply FloatFacts.div_zero_not_finite.
    + destruct Hr as [Hr | Hr].
      * exists (App.R23 row). split; [exact Hr |].
        now apply FloatFacts.div_zero_not_finite.
      * exists (App.R34 row). split; [exact Hr |].
        now apply FloatFacts.div_zero_not_finite.
  - unfold App.loop_body, joblib_load. rewrite Hroute. cbn [Py.bind].
    rewrite Hmodel. cbn [Py.bind]. now rewrite <- app_assoc.
Qed.

Lemma C4_zero_denominator_witness :
  App.script full_disk (inputs_of "Ti" 0.0) true
  = Py.Raise Py.ZeroDivisionError
  /\ App.loop_body full_disk zero_d50_row [] = Py.Ok [infinity; infinity].
Proof.
  pose proof (C4_zero_denominator full_disk (inputs_of "Ti" 0.0) true
    zero_d50_row [] "ti" [0.5; infinity; 5.0]%float probe
    (or_introl eq_refl) (or_introl eq_refl) eq_refl eq_refl)
    as (H1 & _ & _ & _ & H3).
  split; [exact H1 | exact H3].
Defined.

(** *** The batch loop *)

Lemma model_used_chain (row : App.Row) :
  model_used row =
  let mat := Py.lower (App.Material row) in
  if Py.str_in "ti" mat then Some "ti"
  else if Py.str_in "ss" mat || Py.str_in "316" mat then Some "ss"
  else if Py.str_in "al" mat then Some "al"
  else None.
Proof.
  unfold model_used, App.route. cbv zeta.
  destruct (Py.str_in "ti" _); [reflexivity |].
  destruct (Py.str_in "ss" _ || Py.str_in "316" _); [reflexivity |].
  now destruct (Py.str_in "al" _).
Qed.

(** An unrouted row appends one marker; a routed row whose model loads
    appends two predictions. *)
Lemma loop_body_length (disk : Disk) (row : App.Row)
    (predictions predictions' : list float) :
  App.loop_body disk row predictions = Py.Ok predictions' ->
  List.length predictions'
  = (List.length predictions + if routed row then 2 else 1)%nat.
Proof.
  unfold App.loop_body, routed, model_used.
  destruct (App.route _ row) as [[k fs] |]; cbn [option_map fst Py.bind].
  - destruct (joblib_load disk _); cbn [Py.bind]; [| discriminate].
    intros [= <-]. rewrite !length_app. simpl. lia.
  - intros [= <-]. rewrite length_app. simpl. lia.
Qed.

Lemma loop_length (disk : Disk) (df : list App.Row) :
  forall predictions predictions' : list float,
  App.loop disk df predictions = Py.Ok predictions' ->
  List.length predictions'
  = (List.length predictions + List.length df
     + List.length (filter routed df))%nat.
Proof.
  induction df as [| row df IH]; intros predictions predictions'.
  - intros [= <-]. simpl. lia.
  - cbn [App.loop].
    destruct (App.loop_body disk row predictions) as [mid |] eqn:Hbody;
      cbn [Py.bind]; [| discriminate].
    intros Hloop. apply IH in Hloop.
    apply loop_body_length in Hbody.
    cbn [filter List.length]. destruct (routed row); simpl; lia.
Qed.

(** The column assignment succeeds only for a frame none of whose rows
    was routed. *)
Lemma batch_ok_unrouted (disk : Disk) (df : list App.Row)
    (out : list (App.Row * float)) :
  App.batch disk df = Py.Ok out -> filter routed df = [].
Proof.
  unfold App.batch, App.assign_column.
  destruct (App.loop disk df []) as [predictions |] eqn:Hloop;
    cbn [Py.bind]; [| discriminate].
  apply loop_length in Hloop.
  destruct (Nat.eqb_spec (List.length predictions) (List.length df));
    [| discriminate].
  intros _. apply length_zero_iff_nil. simpl in Hloop. lia.
Qed.

(** Two rows, the first routed: three values for two rows, and the
    column assignment raises. *)
Example batch_routed_then_unrouted :
  App.loop full_disk [row_of "Ti-6Al-4V"; row_of "unknown"] []
  = Py.Ok [1.1428571428571428%float; 1.1428571428571428%float; Np.nan]
  /\ App.batch full_disk [row_of "Ti-6Al-4V"; row_of "unknown"]
     = Py.Raise (Py.ValueError 3 2).
Proof. split; vm_compute; reflexivity. Qed.

(** A frame with no routed row gets the marker on every row. *)
Example batch_unrouted_only :
  App.batch full_disk [row_of "unknown"; row_of "Inconel 718"]
  = Py.Ok [(row_of "unknown", Np.nan); (row_of "Inconel 718", Np.nan)].
Proof. vm_compute; reflexivity. Qed.

(** An unrouted row: one marker, no model load. *)
Lemma loop_body_unrouted (disk : Disk) (row : App.Row)
    (predictions : list float) :
  model_used row = None ->
  App.loop_body disk row predictions = Py.Ok (predictions ++ [Np.nan])%list.
Proof.
  unfold App.loop_body, model_used.
  now destruct (App.route _ row) as [[k fs] |].
Qed.

(** C5, as stated, fails on its own example: "unknown_alloy" contains
    "al" (in "alloy"), so the row is routed to the Aluminum model and
    its iteration appends that model's prediction, not the marker. *)
Lemma C5_counterexample :
  model_used (row_of "unknown_alloy") = Some (key Aluminum)
  /\ App.loop_body full_disk (row_of "unknown_alloy") []
     = Py.Ok [1.1428571428571428%float; 1.1428571428571428%float]
  /\ is_nan 1.1428571428571428 = false
  /\ is_nan Np.nan = true.
Proof. split; [| split; [| split]]; vm_compute; reflexivity. Qed.

(** C5, amended. A row that the chain leaves unrouted ([model_used] is
    [None]; for example Material "unknown") has the marker NaN appended
    for it; its iteration loads no model and raises nothing, whatever
    the directory holds, and the loop goes on with the rows after it. *)
Theorem C5_unrouted_row_marker
    (disk : Disk) (row : App.Row) (rows : list App.Row)
    (predictions : list float)
    (Hunrouted : model_used row = None) :
  App.loop_body disk row predictions = Py.Ok (predictions ++ [Np.nan])%list
  /\ App.loop disk (row :: rows) predictions
     = App.loop disk rows (predictions ++ [Np.nan])%list
  /\ model_used (row_of "unknown") = None.
Proof.
  pose proof (loop_body_unrouted disk row predictions Hunrouted) as Hbody.
  split; [exact Hbody | split; [| reflexivity]].
  cbn [App.loop]. now rewrite Hbody.
Qed.

Lemma C5_unrouted_row_marker_witness :
  model_used (row_of "unknown") = None
  /\ App.loop_body (fun _ => None) (row_of "unknown") [50.0%float]
     = Py.Ok [50.0%float; Np.nan].
Proof.
  split; [reflexivity |].
  exact (proj1 (C5_unrouted_row_marker (fun _ => None) (row_of "unknown")
                  [row_of "Ti"] [50.0%float] eq_refl)).
Defined.

(** *** Free-text classification *)

Lemma batch_class_functional (mat : string) (og og' : option MaterialGroup) :
  batch_class mat og -> batch_class mat og' -> og = og'.
Proof.
  intros H H'; destruct H, H'; try reflexivity; tauto.
Qed.

(** C6. The batch loop lower-cases the Material text and its
    [model_used] is the key of the spec's first-match classification of
    that text ("ti"; else "ss" or "316"; else "al"; else none), which
    is single-valued; "SS316L" gives "ss" and "Ti-6Al-4V" gives "ti". *)
Theorem C6_batch_classification (row : App.Row) :
  (exists og : option MaterialGroup,
      batch_class (Py.lower (App.Material row)) og
      /\ (forall og', batch_class (Py.lower (App.Material row)) og' ->
                      og' = og)
      /\ model_used row = option_map key og)
  /\ model_used (row_of "SS316L") = Some (key StainlessSteel)
  /\ model_used (row_of "Ti-6Al-4V") = Some (key Titanium)
  /\ model_used (row_of "AlSi10Mg") = Some (key Aluminum)
  /\ model_used (row_of "Inconel 718") = None.
Proof.
  split; [| repeat split].
  rewrite model_used_chain. cbv zeta.
  set (mat := Py.lower (App.Material row)).
  assert (Hex : forall og, batch_class mat og ->
                batch_class mat og
                /\ (forall og', batch_class mat og' -> og' = og))
    by (intros og H; split; [exact H |];
        intros og' H'; exact (batch_class_functional _ _ _ H' H)).
  assert (Hdone : forall og ks, batch_class mat og -> ks = option_map key og ->
                  exists og0, batch_class mat og0
                    /\ (forall og', batch_class mat og' -> og' = og0)
                    /\ ks = option_map key og0).
  { intros og ks H ->. exists og. destruct (Hex og H) as [HA HB].
    now split; [| split]. }
  destruct (Py.str_in "ti" mat) eqn:Eti.
  { apply (Hdone (Some Titanium)); [| reflexivity].
    apply class_ti. now apply StrFacts.str_in_occurs. }
  apply StrFacts.str_in_absent in Eti.
  destruct (Py.str_in "ss" mat) eqn:Ess.
  { apply (Hdone (Some StainlessSteel)); [| reflexivity].
    apply class_ss; [exact Eti |].
    left. now apply StrFacts.str_in_occurs. }
  apply StrFacts.str_in_absent in Ess.
  destruct (Py.str_in "316" mat) eqn:E316.
  { apply (Hdone (Some StainlessSteel)); [| reflexivity].
    apply class_ss; [exact Eti |].
    right. now apply StrFacts.str_in_occurs. }
  apply StrFacts.str_in_absent in E316.
  destruct (Py.str_in "al" mat) eqn:Eal; cbn [orb].
  { apply (Hdone (Some Aluminum)); [| reflexivity].
    apply class_al; try assumption. now apply StrFacts.str_in_occurs. }
  apply StrFacts.str_in_absent in Eal.
  apply (Hdone None); [| reflexivity].
  now apply class_unmatched.
Qed.

(** *** Warnings *)

(** C7, as stated, fails on [src/project/app.py], which has three of
    the five checks: with Span=2.5 and HR=1.5 (above 1.4) and everything
    else in range it shows the span warning alone. *)
Lemma C7_counterexample :
  Project.script full_disk project_wide_span false
  = Py.Ok {| App.shown_warnings := [App.span_warning];
             App.outcome := App.NotRequested |}
  /\ (Project.hr project_wide_span >? 1.4)%float = true.
Proof. split; vm_compute; reflexivity. Qed.

(** Membership in a literal list of warnings; the five texts differ. *)
Ltac in_warnings :=
  unfold App.span_warning, App.r23_warning, App.r34_warning,
    App.bridging_warning, App.flowability_warning in *;
  cbn [app In] in *;
  intuition (try discriminate; try reflexivity).

(** C7, amended. In [src/app.py] each of the five conditions yields its
    own warning, independently of the other four; with Span=2.5, HR=1.5
    and the other metrics in range the warnings are exactly the span and
    the flowability ones; and whatever the warnings, a click on "Predict
    PBPD" reaches the prediction block. [src/project/app.py] has only
    the Span, R23 and R34 checks. *)
Theorem C7_warnings_independent
    (disk : Disk) (i : App.Inputs)
    (span r23 r34 d23 layer_thickness hr : float)
    (r23' r34' d23' layer_thickness' : float)
    (Hd50 : (App.d50 i =? 0)%float = false)
    (Hlt : (App.layer_thickness i =? 0)%float = false)
    (Hr23 : ((r23' <? 0.05) || (r23' >? 1.2))%float = false)
    (Hr34 : ((r34' <? 0.05) || (r34' >? 1.5))%float = false)
    (Hd23 : (d23' >? layer_thickness')%float = false) :
  let ws := App.warnings span r23 r34 d23 layer_thickness hr in
  (In App.span_warning ws
     <-> ((span <? 0.8) || (span >? 2.0))%float = true)
  /\ (In App.r23_warning ws
     <-> ((r23 <? 0.05) || (r23 >? 1.2))%float = true)
  /\ (In App.r34_warning ws
     <-> ((r34 <? 0.05) || (r34 >? 1.5))%float = true)
  /\ (In App.bridging_warning ws <-> (d23 >? layer_thickness)%float = true)
  /\ (In App.flowability_warning ws <-> (hr >? 1.4)%float = true)
  /\ App.warnings 2.5 r23' r34' d23' layer_thickness' 1.5
     = [App.span_warning; App.flowability_warning]
  /\ (exists page : App.Page,
        App.script disk i true = Py.Ok page
        /\ App.outcome page
           = App.predict_block disk
               (App.material_group (App.material_choice i)
                                   (App.bulk_density i))
               (App.d23 i / App.layer_thickness i)
               (App.d34 i / App.layer_thickness i)
               ((App.d90 i - App.d10 i) / App.d50 i)
               (App.tap_density i) (App.hr i))
  /\ (forall w : string,
        In w (Project.warnings span r23 r34) ->
        w = App.span_warning \/ w = App.r23_warning \/ w = App.r34_warning).
Proof.
  cbv zeta.
  split; [| split; [| split; [| split; [| split; [| split; [| split]]]]]].
  1-5: unfold App.warnings, App.append_if;
    destruct ((span <? 0.8) || (span >? 2.0))%float;
    destruct ((r23 <? 0.05) || (r23 >? 1.2))%float;
    destruct ((r34 <? 0.05) || (r34 >? 1.5))%float;
    destruct (d23 >? layer_thickness)%float;
    destruct (hr >? 1.4)%float;
    in_warnings.
  - unfold App.warnings, App.append_if. rewrite Hr23, Hr34, Hd23.
    reflexivity.
  - unfold App.script, App.span, App.r23, App.r34.
    rewrite !FloatFacts.truediv_nonzero by assumption. cbn [Py.bind].
    eexists. split; reflexivity.
  - unfold Project.warnings, App.append_if.
    destruct ((span <? 0.8) || (span >? 2.0))%float;
    destruct ((r23 <? 0.05) || (r23 >? 1.2))%float;
    destruct ((r34 <? 0.05) || (r34 >? 1.5))%float;
    cbn [app In]; intros w H; intuition auto.
Qed.

Lemma C7_warnings_independent_witness :
  App.warnings 2.5 0.5 0.7 30.0 60.0 1.5
  = [App.span_warning; App.flowability_warning].
Proof.
  pose proof (C7_warnings_independent full_disk default_inputs
                2.5 0.01 0.7 70.0 60.0 1.5 0.5 0.7 30.0 60.0
                eq_refl eq_refl eq_refl eq_refl eq_refl) as H.
  exact (proj1 (proj2 (proj2 (proj2 (proj2 (proj2 H)))))).
Defined.

(** *** Missing model files *)

(** In the interactive block a missing file is caught and named. *)
Lemma predict_block_missing_model (disk : Disk) (g : MaterialGroup)
    (r23 r34 span tap_density hr : float) :
  disk (App.model_file (key g)) = None ->
  App.predict_block disk (key g) r23 r34 span tap_density hr
  = App.Error ("Model for '" ++ Py.upper (key g)
               ++ "' not found. Make sure the model file exists.").
Proof.
  intros H. unfold App.predict_block, joblib_load.
  now rewrite lower_key, H.
Qed.

(** In the batch loop the same failure leaves the loop. *)
Lemma loop_missing_model (disk : Disk) (row : App.Row) (rows : list App.Row)
    (predictions : list float) (k : string) :
  model_used row = Some k -> disk (App.model_file k) = None ->
  App.loop disk (row :: rows) predictions
  = Py.Raise (Py.FileNotFoundError (App.model_file k)).
Proof.
  unfold model_used. cbn [App.loop]. unfold App.loop_body, joblib_load.
  destruct (App.route _ row) as [[k' fs] |]; cbn [option_map fst];
    [| discriminate].
  intros [= ->] ->. reflexivity.
Qed.

(** C8. With [model_ti.pkl] missing, the interactive script shows
    "Model for 'TI' not found. Make sure the model file exists." and
    ends that one prediction; the batch flow on the rows "Ti" and "Al"
    (the Aluminum model being present) does not go on to the second
    row: the FileNotFoundError of the first row ends the whole batch. *)
Theorem C8_missing_model_file :
  App.script disk_without_ti (inputs_of "Ti" 35.0) true
  = Py.Ok {| App.shown_warnings := [];
             App.outcome :=
               App.Error
                 "Model for 'TI' not found. Make sure the model file exists."
          |}
  /\ model_used (row_of "Al") = Some "al"
  /\ disk_without_ti (App.model_file "al") = Some probe
  /\ App.batch disk_without_ti [row_of "Ti"; row_of "Al"]
     = Py.Raise (Py.FileNotFoundError "model_ti.pkl").
Proof. split; [| split; [| split]]; vm_compute; reflexivity. Qed.

(** *** The form's lower bounds *)

(** C9. For every submission the widgets accept, LayerThickness is at
    least 0.1 and HR at least 1.0, so R23 and R34 divide by a non-zero
    number and are computed (in both scripts); D50 has no lower bound,
    and an accepted submission with D50 = 0 makes Span raise. *)
Theorem C9_layer_thickness_guard
    (i : App.Inputs) (j : Project.Inputs)
    (Hi : App.widgets_accept i = true)
    (Hj : Project.widgets_accept j = true) :
  (0.1 <=? App.layer_thickness i)%float = true
  /\ (1.0 <=? App.hr i)%float = true
  /\ (App.layer_thickness i =? 0)%float = false
  /\ App.r23 i = Py.Ok (App.d23 i / App.layer_thickness i)%float
  /\ App.r34 i = Py.Ok (App.d34 i / App.layer_thickness i)%float
  /\ Project.r23 j
     = Py.Ok (Project.d23 j / Project.layer_thickness j)%float
  /\ Project.r34 j
     = Py.Ok (Project.d34 j / Project.layer_thickness j)%float
  /\ (exists i0 : App.Inputs,
        App.widgets_accept i0 = true
        /\ App.d50 i0 = 0%float
        /\ App.span i0 = Py.Raise Py.ZeroDivisionError).
Proof.
  unfold App.widgets_accept in Hi. unfold Project.widgets_accept in Hj.
  apply andb_true_iff in Hi as [Hi Hlt]. apply andb_true_iff in Hi as [_ Hhr].
  apply andb_true_iff in Hj as [_ Hlt'].
  pose proof (FloatFacts.above_positive_nonzero 0.1 _ eq_refl Hlt) as Hnz.
  pose proof (FloatFacts.above_positive_nonzero 0.1 _ eq_refl Hlt') as Hnz'.
  unfold App.r23, App.r34, Project.r23, Project.r34.
  rewrite !FloatFacts.truediv_nonzero by assumption.
  repeat (split; [assumption || reflexivity |]).
  exists (inputs_of "Auto (via density)" 0).
  repeat split.
Qed.

Lemma C9_layer_thickness_guard_witness :
  App.widgets_accept default_inputs = true
  /\ Project.widgets_accept project_defaults = true
  /\ App.r23 default_inputs = Py.Ok 0.5%float.
Proof.
  split; [reflexivity | split; [reflexivity |]].
  pose proof (C9_layer_thickness_guard default_inputs project_defaults
                eq_refl eq_refl) as H.
  exact (proj1 (proj2 (proj2 (proj2 H)))).
Defined.

(** *** Batch routing and bulk density *)

(** C10. In the batch flow [model_used] is a function of the Material
    text alone: two rows with the same text get the same routing,
    whatever their other columns. A row whose lower-cased text contains
    none of "ti", "ss", "316" and "al" (the text "Auto", or the
    interactive option "Auto (via density)") is left unrouted and gets
    the marker NaN, with no model loaded. The interactive scripts are
    where "Auto (via density)" is resolved by density. *)
Theorem C10_batch_routing_text_only
    (disk : Disk) (row row' r : App.Row) (predictions : list float)
    (Hsame : App.Material row = App.Material row')
    (Hti : Py.str_in "ti" (Py.lower (App.Material r)) = false)
    (Hss : Py.str_in "ss" (Py.lower (App.Material r)) = false)
    (H316 : Py.str_in "316" (Py.lower (App.Material r)) = false)
    (Hal : Py.str_in "al" (Py.lower (App.Material r)) = false) :
  model_used row = model_used row'
  /\ model_used r = None
  /\ App.loop_body disk r predictions
     = Py.Ok (predictions ++ [Np.nan])%list
  /\ (forall density d50, model_used (auto_row density d50) = None)
  /\ model_used (row_of "Auto (via density)") = None
  /\ App.material_group "Auto (via density)" 2.7 = key Aluminum
  /\ App.material_group "Auto (via density)" 4.5 = key Titanium
  /\ App.material_group "Auto (via density)" 7.9 = key StainlessSteel
  /\ Project.material_group "Auto (via density)" 2.7 = key Aluminum.
Proof.
  assert (Hr : model_used r = None)
    by (rewrite model_used_chain; cbv zeta; now rewrite Hti, Hss, H316, Hal).
  split; [| split; [exact Hr | split; [| repeat split]]].
  - rewrite !model_used_chain. now rewrite Hsame.
  - now apply loop_body_unrouted.
Qed.

Lemma C10_batch_routing_text_only_witness :
  model_used (auto_row "2.7" 35.0) = model_used (auto_row "7.9" 40.0)
  /\ App.loop_body full_disk (auto_row "2.7" 35.0) []
     = Py.Ok [Np.nan].
Proof.
  pose proof (C10_batch_routing_text_only full_disk
                (auto_row "2.7" 35.0) (auto_row "7.9" 40.0)
                (auto_row "2.7" 35.0) []
                eq_refl eq_refl eq_refl eq_refl eq_refl) as H.
  split; [exact (proj1 H) | exact (proj1 (proj2 (proj2 H)))].
Defined.

(** ** Further properties of the batch flow *)

(** The key a routed row gets is one of the three. *)
Lemma route_key (mat : string) (row : App.Row) (k : string)
    (features : list float) :
  App.route mat row = Some (k, features) ->
  exists g : MaterialGroup, k = key g /\ features = row_features g row.
Proof.
  unfold App.route.
  destruct (Py.str_in "ti" mat);
    [| destruct (Py.str_in "ss" mat || Py.str_in "316" mat);
       [| destruct (Py.str_in "al" mat); [| discriminate]]];
    intros [= <- <-];
    [exists Titanium | exists StainlessSteel | exists Aluminum];
    now split.
Qed.

(** One iteration only ever appends to [predictions]. *)
Lemma loop_body_acc (disk : Disk) (row : App.Row) (predictions : list float) :
  App.loop_body disk row predictions
  = (added <- App.loop_body disk row [] ;;
     Py.Ok (predictions ++ added)%list).
Proof.
  unfold App.loop_body.
  destruct (App.route _ row) as [[k fs] |]; cbn [Py.bind app].
  - destruct (joblib_load disk _); cbn [Py.bind app]; [| reflexivity].
    now rewrite <- app_assoc.
  - reflexivity.
Qed.

Lemma loop_app (disk : Disk) (df1 df2 : list App.Row) :
  forall predictions : list float,
  App.loop disk (df1 ++ df2) predictions
  = (predictions <- App.loop disk df1 predictions ;;
     App.loop disk df2 predictions).
Proof.
  induction df1 as [| row df1 IH]; intros predictions;
    cbn [App.loop app Py.bind]; [reflexivity |].
  destruct (App.loop_body disk row predictions); cbn [Py.bind];
    [apply IH | reflexivity].
Qed.

(** A frame without routed rows: one marker per row. *)
Lemma loop_unrouted (disk : Disk) (df : list App.Row) :
  filter routed df = [] ->
  forall predictions : list float,
  App.loop disk df predictions
  = Py.Ok (predictions ++ map (fun _ => Np.nan) df)%list.
Proof.
  induction df as [| row df IH]; intros Hnone predictions;
    cbn [App.loop map].
  - now rewrite app_nil_r.
  - cbn [filter] in Hnone. destruct (routed row) eqn:Hrow; [discriminate |].
    rewrite loop_body_unrouted
      by (unfold routed in Hrow; now destruct (model_used row)).
    cbn [Py.bind]. rewrite (IH Hnone). now rewrite <- app_assoc.
Qed.

Lemma combine_all_missing (df : list App.Row) :
  combine df (map (fun _ => Np.nan) df) = all_missing df.
Proof.
  unfold all_missing. induction df as [| row df IH]; simpl; congruence.
Qed.

(** With the three model files in place the loop gets through any
    frame. *)
Lemma loop_with_models (disk : Disk) (df : list App.Row) :
  (forall g, disk (App.model_file (key g)) <> None) ->
  forall predictions : list float,
  exists collected, App.loop disk df predictions = Py.Ok collected.
Proof.
  intros Hall. induction df as [| row df IH]; intros predictions;
    cbn [App.loop]; [now eexists |].
  unfold App.loop_body.
  destruct (App.route _ row) as [[k fs] |] eqn:Hroute; cbn [Py.bind];
    [| apply IH].
  destruct (route_key _ _ _ _ Hroute) as (g & -> & _).
  unfold joblib_load. specialize (Hall g).
  destruct (disk (App.model_file (key g))); [| contradiction].
  cbn [Py.bind]. apply IH.
Qed.

(** Completion of the batch, both ways. *)
Lemma batch_ok_all_missing (disk : Disk) (df : list App.Row)
    (out : list (App.Row * float)) :
  App.batch disk df = Py.Ok out -> filter routed df = [] /\ out = all_missing df.
Proof.
  intros Hok. pose proof (batch_ok_unrouted _ _ _ Hok) as Hnone.
  split; [exact Hnone |]. revert Hok. unfold App.batch, App.assign_column.
  rewrite (loop_unrouted disk df Hnone). cbn [Py.bind app].
  rewrite length_map, Nat.eqb_refl, combine_all_missing. now intros [= <-].
Qed.

Lemma batch_unrouted_ok (disk : Disk) (df : list App.Row) :
  filter routed df = [] -> App.batch disk df = Py.Ok (all_missing df).
Proof.
  intros Hnone. unfold App.batch, App.assign_column.
  rewrite (loop_unrouted disk df Hnone). cbn [Py.bind app].
  now rewrite length_map, Nat.eqb_refl, combine_all_missing.
Qed.

(** X1. The batch completes exactly when no row of the frame is routed,
    and the frame it then yields is the input rows, in order, each with
    NaN as its prediction: a completed batch never holds a model's
    prediction. *)
Theorem X1_batch_completes_iff_unrouted
    (disk : Disk) (df : list App.Row) (out : list (App.Row * float)) :
  App.batch disk df = Py.Ok out
  <-> filter routed df = [] /\ out = all_missing df.
Proof.
  split.
  - apply batch_ok_all_missing.
  - intros [Hnone ->]. now apply batch_unrouted_ok.
Qed.

(** X2. With all three model files present and at least one routed row,
    the batch ends in the ValueError of the column assignment: the loop
    has collected one value per row plus one more per routed row. *)
Theorem X2_batch_value_error
    (disk : Disk) (df : list App.Row)
    (Hmodels : forall g, disk (App.model_file (key g)) <> None)
    (Hrouted : filter routed df <> []) :
  App.batch disk df
  = Py.Raise (Py.ValueError
                (List.length df + List.length (filter routed df))
                (List.length df)).
Proof.
  unfold App.batch, App.assign_column.
  destruct (loop_with_models disk df Hmodels []) as [collected Hloop].
  rewrite Hloop. cbn [Py.bind].
  apply loop_length in Hloop. cbn [List.length] in Hloop.
  assert (Hpos : (0 < List.length (filter routed df))%nat)
    by (destruct (filter routed df); [contradiction | simpl; lia]).
  destruct (Nat.eqb_spec (List.length collected) (List.length df)); [lia |].
  now rewrite Hloop.
Qed.

Lemma X2_batch_value_error_witness :
  App.batch full_disk [row_of "unknown"; row_of "SS316L"; row_of "Al"]
  = Py.Raise (Py.ValueError 5 3).
Proof.
  apply (X2_batch_value_error full_disk
           [row_of "unknown"; row_of "SS316L"; row_of "Al"]);
    [intros g; discriminate | discriminate].
Defined.

(** X3. The batch stops at the first routed row whose model file is
    missing, with the FileNotFoundError of that file, whatever rows
    follow it. *)
Theorem X3_batch_first_missing_model
    (disk : Disk) (before after : list App.Row) (row : App.Row)
    (collected : list float) (k : string)
    (Hbefore : App.loop disk before [] = Py.Ok collected)
    (Hrow : model_used row = Some k)
    (Hmissing : disk (App.model_file k) = None) :
  App.batch disk (before ++ row :: after)
  = Py.Raise (Py.FileNotFoundError (App.model_file k)).
Proof.
  unfold App.batch. rewrite loop_app, Hbefore. cbn [Py.bind].
  now rewrite (loop_missing_model disk row after collected k Hrow Hmissing).
Qed.

Lemma X3_batch_first_missing_model_witness :
  App.batch disk_without_ti
    [row_of "unknown"; row_of "Al"; row_of "Ti"; row_of "SS"]
  = Py.Raise (Py.FileNotFoundError "model_ti.pkl").
Proof.
  exact (X3_batch_first_missing_model disk_without_ti
           [row_of "unknown"; row_of "Al"] [row_of "SS"] (row_of "Ti")
           [Np.nan; 1.1428571428571428%float; 1.1428571428571428%float]
           "ti" eq_refl eq_refl eq_refl).
Defined.

(** X5. The loop only appends: started from any list of earlier
    predictions, it returns that list followed by what it returns when
    started from the empty list, and fails when that run fails. *)
Theorem X5_loop_appends
    (disk : Disk) (df : list App.Row) (predictions : list float) :
  App.loop disk df predictions
  = (added <- App.loop disk df [] ;; Py.Ok (predictions ++ added)%list).
Proof.
  revert predictions.
  induction df as [| row df IH]; intros predictions; cbn [App.loop Py.bind].
  - now rewrite app_nil_r.
  - rewrite (loop_body_acc disk row predictions).
    destruct (App.loop_body disk row []) as [first |]; cbn [Py.bind];
      [| reflexivity].
    rewrite (IH (predictions ++ first)%list), (IH first).
    destruct (App.loop disk df []) as [others |]; cbn [Py.bind];
      [| reflexivity].
    now rewrite app_assoc.
Qed.

(** X7. The batch reads nothing of the directory but the three files
    [model_ti.pkl], [model_ss.pkl] and [model_al.pkl]: two directories
    that agree on them give the same result on every frame. *)
Theorem X7_batch_reads_three_files
    (disk disk' : Disk) (df : list App.Row)
    (Hsame : forall g,
        disk (App.model_file (key g)) = disk' (App.model_file (key g))) :
  App.batch disk df = App.batch disk' df.
Proof.
  unfold App.batch. f_equal.
  generalize (@nil float). induction df as [| row df IH]; intros predictions;
    cbn [App.loop]; [reflexivity |].
  assert (Hbody : App.loop_body disk row predictions
                  = App.loop_body disk' row predictions).
  { unfold App.loop_body.
    destruct (App.route _ row) as [[k fs] |] eqn:Hroute; [| reflexivity].
    destruct (route_key _ _ _ _ Hroute) as (g & -> & _).
    unfold joblib_load. now rewrite Hsame. }
  rewrite Hbody.
  destruct (App.loop_body disk' row predictions); cbn [Py.bind];
    [apply IH | reflexivity].
Qed.

Lemma X7_batch_reads_three_files_witness :
  App.batch full_disk [row_of "Ti"; row_of "unknown"]
  = App.batch
      (fun path => if (path =? "readme.txt")%string then None else Some probe)
      [row_of "Ti"; row_of "unknown"].
Proof.
  apply (X7_batch_reads_three_files full_disk
           (fun path =>
              if (path =? "readme.txt")%string then None else Some probe)
           [row_of "Ti"; row_of "unknown"]).
  intros g; now destruct g.
Defined.

(** ** Further properties of routing and of the interactive scripts *)

Lemma lower_char_idempotent (c : ascii) :
  Py.lower_char (Py.lower_char c) = Py.lower_char c.
Proof. destruct c as [[] [] [] [] [] [] [] []]; reflexivity. Qed.

Lemma lower_upper_char (c : ascii) :
  Py.lower_char (Py.upper_char c) = Py.lower_char c.
Proof. destruct c as [[] [] [] [] [] [] [] []]; reflexivity. Qed.

Lemma lower_idempotent (s : string) : Py.lower (Py.lower s) = Py.lower s.
Proof.
  induction s as [| c s IH]; [reflexivity |].
  cbn [Py.lower]. now rewrite lower_char_idempotent, IH.
Qed.

Lemma lower_upper (s : string) : Py.lower (Py.upper s) = Py.lower s.
Proof.
  induction s as [| c s IH]; [reflexivity |].
  cbn [Py.lower Py.upper]. now rewrite lower_upper_char, IH.
Qed.

(** Every option of the selectbox resolves to the key of a group. *)
Lemma resolved_group (material_choice : string) (bulk_density : float) :
  existsb (String.eqb material_choice) App.material_options = true ->
  exists g : MaterialGroup,
    App.material_group material_choice bulk_density = key g.
Proof.
  unfold App.material_options. cbn [existsb]. rewrite !orb_true_iff.
  intros [H | [H | [H | [H | H]]]]; try discriminate;
    apply String.eqb_eq in H; subst material_choice.
  - unfold App.material_group.
    change ("Auto (via density)" =? "Auto (via density)")%string with true.
    cbv iota.
    destruct (bulk_density <? 3.5)%float; [now exists Aluminum |].
    destruct ((3.5 <=? bulk_density) && (bulk_density <? 6))%float;
      [now exists Titanium | now exists StainlessSteel].
  - now exists Titanium.
  - now exists StainlessSteel.
  - now exists Aluminum.
Qed.

Lemma accepted_choice (i : App.Inputs) :
  App.widgets_accept i = true ->
  existsb (String.eqb (App.material_choice i)) App.material_options = true
  /\ (App.layer_thickness i =? 0)%float = false.
Proof.
  unfold App.widgets_accept. intros H.
  apply andb_true_iff in H as [H Hlt]. apply andb_true_iff in H as [H _].
  apply andb_true_iff in H as [H _]. split; [exact H |].
  exact (FloatFacts.above_positive_nonzero 0.1 _ eq_refl Hlt).
Qed.

(** X8. Batch routing is case-insensitive: a row whose Material is the
    upper-cased or the lower-cased text of another row's Material is
    routed to the same model. *)
Theorem X8_batch_routing_ignores_case
    (row row' : App.Row)
    (Hcase : App.Material row' = Py.upper (App.Material row)
             \/ App.Material row' = Py.lower (App.Material row)) :
  model_used row' = model_used row.
Proof.
  rewrite !model_used_chain. cbv zeta.
  destruct Hcase as [-> | ->]; now rewrite ?lower_upper, ?lower_idempotent.
Qed.

Lemma X8_batch_routing_ignores_case_witness :
  model_used (row_of "TI-6AL-4V") = model_used (row_of "Ti-6Al-4V").
Proof.
  exact (X8_batch_routing_ignores_case (row_of "Ti-6Al-4V")
           (row_of "TI-6AL-4V") (or_introl eq_refl)).
Defined.

Lemma material_group_same (material_choice : string) (bulk_density : float) :
  App.material_group material_choice bulk_density
  = Project.material_group material_choice bulk_density.
Proof.
  unfold App.material_group, Project.material_group.
  destruct (material_choice =? "Auto (via density)")%string;
    [reflexivity | apply lower_idempotent].
Qed.

Lemma material_group_lower (material_choice : string) (bulk_density : float) :
  Py.lower (App.material_group material_choice bulk_density)
  = App.material_group material_choice bulk_density.
Proof.
  unfold App.material_group.
  destruct (material_choice =? "Auto (via density)")%string.
  - destruct (bulk_density <? 3.5)%float; [reflexivity |].
    now destruct ((3.5 <=? bulk_density) && (bulk_density <? 6))%float.
  - now rewrite !lower_idempotent.
Qed.

Lemma predict_block_same (disk : Disk) (material_choice : string)
    (bulk_density r23 r34 span tap_density hr : float) :
  App.predict_block disk
    (App.material_group material_choice bulk_density)
    r23 r34 span tap_density hr
  = Project.predict_block disk
      (Project.material_group material_choice bulk_density)
      r23 r34 span tap_density hr.
Proof.
  unfold App.predict_block, Project.predict_block.
  now rewrite material_group_lower, material_group_same.
Qed.

(** X9. The two scripts resolve every choice and density to the same
    group (the second [.lower()] of line 33 of [src/app.py] changes
    nothing), the resolved group is already lower-case (so neither does
    the [.lower()] in the file name of line 73), and their "Predict
    PBPD" blocks load the same file and show the same result. *)
Theorem X9_scripts_resolve_alike
    (disk : Disk) (material_choice : string)
    (bulk_density r23 r34 span tap_density hr : float) :
  App.material_group material_choice bulk_density
  = Project.material_group material_choice bulk_density
  /\ Py.lower (App.material_group material_choice bulk_density)
     = App.material_group material_choice bulk_density
  /\ App.predict_block disk
       (App.material_group material_choice bulk_density)
       r23 r34 span tap_density hr
     = Project.predict_block disk
         (Project.material_group material_choice bulk_density)
         r23 r34 span tap_density hr.
Proof.
  split; [apply material_group_same | split].
  - apply material_group_lower.
  - apply predict_block_same.
Qed.

(** X10. Fed the Span that [src/app.py] computes, [src/project/app.py]
    behaves like it on the same submission: both stop with the same
    exception, or both show a page with the same "Predict PBPD"
    outcome, the warnings of [src/app.py] being those of
    [src/project/app.py] followed by further ones. *)
Theorem X10_project_script_agrees
    (disk : Disk) (i : App.Inputs) (clicked : bool)
    (Hd50 : (App.d50 i =? 0)%float = false) :
  match App.script disk i clicked,
        Project.script disk
          (to_project i ((App.d90 i - App.d10 i) / App.d50 i)) clicked
  with
  | Py.Ok page, Py.Ok page' =>
      App.outcome page = App.outcome page'
      /\ exists more : list string,
           App.shown_warnings page
           = (App.shown_warnings page' ++ more)%list
  | Py.Raise e, Py.Raise e' => e = e'
  | _, _ => False
  end.
Proof.
  unfold App.script, Project.script, App.span, App.r23, App.r34,
    Project.r23, Project.r34.
  rewrite (FloatFacts.truediv_nonzero _ _ Hd50). cbn [Py.bind to_project
    Project.d23 Project.d34 Project.layer_thickness Project.span
    Project.material_choice Project.bulk_density Project.tap_density
    Project.hr].
  unfold Py.truediv.
  destruct (App.layer_thickness i =? 0)%float; cbn [Py.bind];
    [reflexivity |].
  cbn [App.outcome App.shown_warnings]. split.
  - destruct clicked; [| reflexivity]. apply predict_block_same.
  - unfold App.warnings, Project.warnings, App.append_if.
    destruct ((_ <? 0.8) || (_ >? 2.0))%float;
      destruct ((_ <? 0.05) || (_ >? 1.2))%float;
      destruct ((_ <? 0.05) || (_ >? 1.5))%float;
      destruct (App.d23 i >? App.layer_thickness i)%float;
      destruct (App.hr i >? 1.4)%float;
      cbn [app]; eexists; try reflexivity;
      try (symmetry; apply app_nil_r).
Qed.

Lemma X10_project_script_agrees_witness :
  match App.script full_disk default_inputs true,
        Project.script full_disk
          (to_project default_inputs
             ((App.d90 default_inputs - App.d10 default_inputs)
              / App.d50 default_inputs)) true
  with
  | Py.Ok page, Py.Ok page' =>
      App.outcome page = App.outcome page'
      /\ exists more : list string,
           App.shown_warnings page
           = (App.shown_warnings page' ++ more)%list
  | Py.Raise e, Py.Raise e' => e = e'
  | _, _ => False
  end.
Proof.
  exact (X10_project_script_agrees full_disk default_inputs true eq_refl).
Defined.

(** X11. For a submission the widgets accept with a non-zero D50, a
    click on "Predict PBPD" has exactly two possible outcomes: the
    prediction of the resolved group's model on that group's feature
    vector, or, when its file is missing, the error naming the group.
    The "Material model not found." branch is never taken. *)
Theorem X11_click_outcomes
    (disk : Disk) (i : App.Inputs)
    (Haccept : App.widgets_accept i = true)
    (Hd50 : (App.d50 i =? 0)%float = false) :
  exists (g : MaterialGroup) (page : App.Page),
    App.material_group (App.material_choice i) (App.bulk_density i) = key g
    /\ App.script disk i true = Py.Ok page
    /\ App.outcome page <> App.Error "Material model not found."
    /\ App.outcome page
       = let features :=
           feature_table g
             (App.d23 i / App.layer_thickness i)
             (App.d34 i / App.layer_thickness i)
             ((App.d90 i - App.d10 i) / App.d50 i)
             (App.tap_density i) (App.hr i) in
         match disk (App.model_file (key g)) with
         | Some model => App.Success features (model features)
         | None =>
             App.Error ("Model for '" ++ Py.upper (key g)
                        ++ "' not found. Make sure the model file exists.")
         end.
Proof.
  destruct (accepted_choice i Haccept) as [Hchoice Hlt].
  destruct (resolved_group _ (App.bulk_density i) Hchoice) as [g Hg].
  exists g. eexists. split; [exact Hg |].
  unfold App.script, App.span, App.r23, App.r34.
  rewrite !FloatFacts.truediv_nonzero by assumption. cbn [Py.bind].
  split; [reflexivity |]. cbn [App.outcome]. rewrite Hg.
  assert (Hblock :
    App.predict_block disk (key g)
      (App.d23 i / App.layer_thickness i) (App.d34 i / App.layer_thickness i)
      ((App.d90 i - App.d10 i) / App.d50 i) (App.tap_density i) (App.hr i)
    = match disk (App.model_file (key g)) with
      | Some model =>
          App.Success
            (feature_table g
               (App.d23 i / App.layer_thickness i)
               (App.d34 i / App.layer_thickness i)
               ((App.d90 i - App.d10 i) / App.d50 i)
               (App.tap_density i) (App.hr i))
            (model (feature_table g
               (App.d23 i / App.layer_thickness i)
               (App.d34 i / App.layer_thickness i)
               ((App.d90 i - App.d10 i) / App.d50 i)
               (App.tap_density i) (App.hr i)))
      | None =>
          App.Error ("Model for '" ++ Py.upper (key g)
                     ++ "' not found. Make sure the model file exists.")
      end).
  { unfold App.predict_block, joblib_load. rewrite lower_key.
    destruct (disk (App.model_file (key g))); [| reflexivity].
    now destruct g. }
  rewrite Hblock. split; [| reflexivity].
  destruct (disk (App.model_file (key g))); [discriminate |].
  destruct g; discriminate.
Qed.

Lemma X11_click_outcomes_witness :
  exists (g : MaterialGroup) (page : App.Page),
    App.material_group "Ti" 4.5 = key g
    /\ App.script disk_without_ti (inputs_of "Ti" 35.0) true = Py.Ok page
    /\ App.outcome page <> App.Error "Material model not found."
    /\ App.outcome page
       = let features :=
           feature_table g (30.0 / 60.0) (42.0 / 60.0) ((55.0 - 15.0) / 35.0)
                         5.0 1.2 in
         match disk_without_ti (App.model_file (key g)) with
         | Some model => App.Success features (model features)
         | None =>
             App.Error ("Model for '" ++ Py.upper (key g)
                        ++ "' not found. Make sure the model file exists.")
         end.
Proof.
  exact (X11_click_outcomes disk_without_ti (inputs_of "Ti" 35.0)
           eq_refl eq_refl).
Defined.

(** X12. For submissions the widgets accept, the interactive part of
    [src/app.py] up to the display of the prediction (form, derived
    metrics, input check and "Predict PBPD" block; the report and the
    batch section aside) stops with an exception exactly when D50 is a
    zero, and the exception is ZeroDivisionError; the same part of
    [src/project/app.py], which divides by the layer thickness only,
    never stops with one. *)
Theorem X12_script_exceptions
    (disk : Disk) (i : App.Inputs) (j : Project.Inputs) (clicked : bool)
    (Hi : App.widgets_accept i = true)
    (Hj : Project.widgets_accept j = true) :
  (App.script disk i clicked = Py.Raise Py.ZeroDivisionError
   <-> (App.d50 i =? 0)%float = true)
  /\ (forall e, App.script disk i clicked = Py.Raise e ->
                e = Py.ZeroDivisionError)
  /\ (exists page, Project.script disk j clicked = Py.Ok page).
Proof.
  destruct (accepted_choice i Hi) as [_ Hlt].
  assert (Hlt' : (Project.layer_thickness j =? 0)%float = false).
  { unfold Project.widgets_accept in Hj.
    apply andb_true_iff in Hj as [_ Hj].
    exact (FloatFacts.above_positive_nonzero 0.1 _ eq_refl Hj). }
  unfold App.script, Project.script, App.span, App.r23, App.r34,
    Project.r23, Project.r34.
  rewrite !(FloatFacts.truediv_nonzero _ _ Hlt),
    !(FloatFacts.truediv_nonzero _ _ Hlt').
  cbn [Py.bind]. split; [| split; [| now eexists]].
  - unfold Py.truediv. destruct (App.d50 i =? 0)%float; cbn [Py.bind];
      split; intros H; try reflexivity; discriminate.
  - intros e. unfold Py.truediv.
    destruct (App.d50 i =? 0)%float; cbn [Py.bind]; [| discriminate].
    now intros [= <-].
Qed.

Lemma X12_script_exceptions_witness :
  App.script full_disk (inputs_of "Al" 0.0) false
  = Py.Raise Py.ZeroDivisionError.
Proof.
  apply (X12_script_exceptions full_disk (inputs_of "Al" 0.0)
           project_defaults false eq_refl eq_refl).
  reflexivity.
Defined.

(** X13. For a submission the widgets accept, the confidence label of
    the report is the one of the resolved group (High for Titanium,
    Moderate for StainlessSteel, Low for Aluminum) and never the
    fallback "Unknown", which is what any other group text gets. *)
Theorem X13_confidence_label
    (i : App.Inputs) (other : string)
    (Haccept : App.widgets_accept i = true)
    (Hother : forall g, other <> key g) :
  (exists g : MaterialGroup,
      App.material_group (App.material_choice i) (App.bulk_density i) = key g
      /\ App.confidence
           (App.material_group (App.material_choice i) (App.bulk_density i))
         = group_confidence g)
  /\ App.confidence
       (App.material_group (App.material_choice i) (App.bulk_density i))
     <> "Unknown"
  /\ App.confidence other = "Unknown".
Proof.
  destruct (accepted_choice i Haccept) as [Hchoice _].
  destruct (resolved_group _ (App.bulk_density i) Hchoice) as [g Hg].
  rewrite Hg. split; [| split].
  - exists g. split; [reflexivity | now destruct g].
  - destruct g; discriminate.
  - unfold App.confidence. cbn [Py.dict_get].
    destruct (String.eqb_spec other "ti") as [-> | _];
      [now elim (Hother Titanium) |].
    destruct (String.eqb_spec other "ss") as [-> | _];
      [now elim (Hother StainlessSteel) |].
    destruct (String.eqb_spec other "al") as [-> | _];
      [now elim (Hother Aluminum) | reflexivity].
Qed.

Lemma X13_confidence_label_witness :
  App.confidence (App.material_group "Auto (via density)" 4.5) <> "Unknown"
  /\ App.confidence "cu" = "Unknown".
Proof.
  assert (H : forall g, "cu" <> key g) by (intros g; destruct g; discriminate).
  exact (proj2 (X13_confidence_label default_inputs "cu" eq_refl H)).
Defined.

(** ** Further properties of the batch section, the warnings and the
    two flows together *)

Lemma has_required_cols_incl (columns : list string) :
  App.has_required_cols columns = true <-> incl App.required_cols columns.
Proof.
  unfold App.has_required_cols, incl. rewrite forallb_forall.
  split; intros H col Hcol; specialize (H col Hcol).
  - apply existsb_exists in H as (x & Hx & Heq).
    apply String.eqb_eq in Heq. now subst x.
  - apply existsb_exists. exists col. split; [exact H |].
    apply String.eqb_refl.
Qed.

(** X14. An upload is rejected with "Missing required columns in CSV."
    exactly when some required column is absent from its header; the
    order of the columns and any further columns do not matter, and the
    rejection does not depend on the rows or on the model files. *)
Theorem X14_required_columns (disk : Disk) (df_csv : App.Frame) :
  App.batch_section disk (Some df_csv) = Py.Ok App.MissingColumns
  <-> ~ incl App.required_cols (App.columns df_csv).
Proof.
  rewrite <- has_required_cols_incl. unfold App.batch_section.
  destruct (App.has_required_cols (App.columns df_csv)); cbn [negb].
  - split; [| intros H; now elim H].
    destruct (App.batch disk (App.rows df_csv)); cbn [Py.bind]; discriminate.
  - split; [intros _; discriminate | reflexivity].
Qed.

(** X15. Whenever the batch section reports completion, the header has
    every required column, no row of the frame was routed, the frame
    offered for download is the input rows in order, each with NaN as
    [Predicted_PBPD_%], and the table shown is its first five rows (all
    of them when there are fewer). *)
Theorem X15_completed_batch
    (disk : Disk) (df_csv : App.Frame)
    (head : list (string * float)) (df : list (App.Row * float))
    (Hdone : App.batch_section disk (Some df_csv)
             = Py.Ok (App.Complete head df)) :
  incl App.required_cols (App.columns df_csv)
  /\ filter routed (App.rows df_csv) = []
  /\ df = all_missing (App.rows df_csv)
  /\ head = firstn 5 (map (fun row => (App.Material row, Np.nan))
                          (App.rows df_csv))
  /\ List.length head = Nat.min 5 (List.length (App.rows df_csv)).
Proof.
  revert Hdone. unfold App.batch_section.
  destruct (App.has_required_cols (App.columns df_csv)) eqn:Hcols;
    cbn [negb]; [| discriminate].
  apply has_required_cols_incl in Hcols.
  destruct (App.batch disk (App.rows df_csv)) as [out |] eqn:Hbatch;
    cbn [Py.bind]; [| discriminate].
  intros [= <- <-].
  apply batch_ok_all_missing in Hbatch as [Hnone ->].
  unfold all_missing. rewrite map_map. cbn [fst snd].
  split; [exact Hcols | split; [exact Hnone | split; [reflexivity |]]].
  split; [reflexivity |].
  rewrite <- (length_map (fun row : App.Row => (App.Material row, Np.nan))
                         (App.rows df_csv)).
  exact (length_firstn 5 _).
Qed.

Lemma X15_completed_batch_witness :
  let rows := [row_of "unknown"; row_of "Inconel 718"; row_of "CuCrZr";
               row_of "Auto"; row_of "W"; row_of "Mo"] in
  List.length
    (firstn 5 (map (fun row => (App.Material row, Np.nan)) rows))
  = 5%nat.
Proof.
  intros rows.
  pose proof (X15_completed_batch full_disk
                {| App.columns := "Bulk_Density" :: rev App.required_cols;
                   App.rows := rows |}
                (firstn 5 (map (fun row => (App.Material row, Np.nan)) rows))
                (all_missing rows) eq_refl) as H.
  exact (proj2 (proj2 (proj2 (proj2 H)))).
Defined.


Lemma key_injective (g g' : MaterialGroup) : key g = key g' -> g = g'.
Proof. destruct g, g'; intros H; try reflexivity; discriminate H. Qed.



(** X17. For the same measurements, with non-zero D50 and layer
    thickness, the batch flow builds the very feature vector the
    interactive flow builds: when a row's text routes it to the group
    the form resolves to, a click shows that group's model on the
    vector that the row's iteration hands to the same model. *)
Theorem X17_flows_build_same_features
    (disk : Disk) (i : App.Inputs) (material : string)
    (g : MaterialGroup) (model : Model)
    (Hd50 : (App.d50 i =? 0)%float = false)
    (Hlt : (App.layer_thickness i =? 0)%float = false)
    (Hform : App.material_group (App.material_choice i) (App.bulk_density i)
             = key g)
    (Hrow : model_used (row_of_inputs i material) = Some (key g))
    (Hmodel : disk (App.model_file (key g)) = Some model) :
  exists (features : list float) (page : App.Page),
    App.route (Py.lower material) (row_of_inputs i material)
    = Some (key g, features)
    /\ App.script disk i true = Py.Ok page
    /\ App.outcome page = App.Success features (model features)
    /\ App.loop_body disk (row_of_inputs i material) []
       = Py.Ok [model features; model features].
Proof.
  unfold model_used in Hrow. cbn [App.Material row_of_inputs] in Hrow.
  destruct (App.route (Py.lower material) (row_of_inputs i material))
    as [[k fs] |] eqn:Hroute; cbn [option_map fst] in Hrow; [| discriminate].
  injection Hrow as ->.
  destruct (route_key _ _ _ _ Hroute) as (g' & Hk & ->).
  apply key_injective in Hk. subst g'.
  exists (row_features g (row_of_inputs i material)). eexists.
  split; [reflexivity | split; [| split]].
  - unfold App.script, App.span, App.r23, App.r34.
    rewrite !FloatFacts.truediv_nonzero by assumption. cbn [Py.bind].
    reflexivity.
  - cbn [App.outcome]. rewrite Hform.
    unfold App.predict_block, joblib_load. rewrite lower_key, Hmodel.
    now destruct g.
  - unfold App.loop_body. cbn [App.Material row_of_inputs].
    rewrite Hroute. unfold joblib_load. now rewrite Hmodel.
Qed.

Lemma X17_flows_build_same_features_witness :
  exists (features : list float) (page : App.Page),
    App.route (Py.lower "Ti-6Al-4V") (row_of_inputs default_inputs "Ti-6Al-4V")
    = Some (key Titanium, features)
    /\ App.script full_disk default_inputs true = Py.Ok page
    /\ App.outcome page = App.Success features (probe features)
    /\ App.loop_body full_disk (row_of_inputs default_inputs "Ti-6Al-4V") []
       = Py.Ok [probe features; probe features].
Proof.
  exact (X17_flows_build_same_features full_disk default_inputs "Ti-6Al-4V"
           Titanium probe eq_refl eq_refl eq_refl eq_refl eq_refl).
Defined.

(** X18. Automatic resolution is monotone in the bulk density: of two
    densities the larger never resolves to a lighter band (Aluminum
    below Titanium below StainlessSteel). *)
Theorem X18_auto_resolution_monotone
    (bulk_density bulk_density' : float)
    (Hle : (bulk_density <=? bulk_density')%float = true) :
  (density_rank (App.material_group "Auto (via density)" bulk_density)
   <= density_rank (App.material_group "Auto (via density)" bulk_density'))%nat.
Proof.
  destruct (FloatFacts.leb_ordered _ _ Hle) as [Hnum _].
  unfold App.material_group.
  change ("Auto (via density)" =? "Auto (via density)")%string with true.
  cbv iota.
  destruct (bulk_density' <? 3.5)%float eqn:E1'.
  { rewrite (FloatFacts.leb_ltb_trans _ _ _ Hle E1'). cbn. lia. }
  destruct (bulk_density <? 3.5)%float eqn:E1;
    [destruct ((3.5 <=? bulk_density') && (bulk_density' <? 6))%float;
     cbn; lia |].
  destruct ((3.5 <=? bulk_density') && (bulk_density' <? 6))%float eqn:E2';
    [| destruct ((3.5 <=? bulk_density) && (bulk_density <? 6))%float;
       cbn; lia].
  apply andb_true_iff in E2' as [_ E3'].
  rewrite (FloatFacts.leb_ltb_trans _ _ _ Hle E3').
  rewrite (FloatFacts.ltb_false_leb bulk_density 3.5 Hnum eq_refl E1).
  cbn. lia.
Qed.

Lemma X18_auto_resolution_monotone_witness :
  (density_rank (App.material_group "Auto (via density)" 2.7)
   <= density_rank (App.material_group "Auto (via density)" 7.9))%nat.
Proof. exact (X18_auto_resolution_monotone 2.7 7.9 eq_refl). Defined.
